(** * SecretSanta: the room server and the client-side key handling

    A shallow embedding of [server.js] (the express handlers, the
    validation helpers, the rate limiter, the persistence flush and the
    assignment generator) and of [public/shared-utils.js] (key derivation
    and decryption), followed by the properties of the specification that
    were checked against them.

    Conventions of the embedding.
    - A JavaScript string is a [string] (one [ascii] per code unit, so the
      model covers the Latin-1 range).
    - A request-body field is an [option string]: [None] is an absent
      field; [!field] is true for [None] and for the empty string.
    - A handler is a function from the server state, the values the
      handler draws from its environment (clock, random sources) and the
      request to the new state and the response.  A handler runs from its
      first statement to its last without another handler in between.
    - [bcrypt], [node-forge], [CryptoJS] and the engine's
      [Array.prototype.sort] are not part of the repository: they are
      interfaces (type classes) whose documented contracts are stated as
      separate law classes and assumed only by the theorems that need
      them. *)

From Stdlib Require Import ZArith Ascii String Permutation Sorted Lia.
From stdpp Require Import gmap strings list fin_maps.

(** ** JavaScript strings *)

Module Js.

(** White space as [String.prototype.trim] sees it, in the Latin-1 range:
    TAB, LF, VT, FF, CR, SPACE and NBSP. *)
Definition is_white (c : ascii) : bool :=
  let n := nat_of_ascii c in
  (n =? 9) || (n =? 10) || (n =? 11) || (n =? 12) || (n =? 13)
  || (n =? 32) || (n =? 160).

Fixpoint trimStart (s : string) : string :=
  match s with
  | EmptyString => EmptyString
  | String c r => if is_white c then trimStart r else s
  end.

Fixpoint trimEnd (s : string) : string :=
  match s with
  | EmptyString => EmptyString
  | String c r =>
      match trimEnd r with
      | EmptyString => if is_white c then EmptyString else String c EmptyString
      | r' => String c r'
      end
  end.

(** [str.trim()] *)
Definition trim (s : string) : string := trimEnd (trimStart s).

(** [str.slice(0, n)] *)
Fixpoint slice0 (n : nat) (s : string) : string :=
  match n, s with
  | S k, String c r => String c (slice0 k r)
  | _, _ => EmptyString
  end.

(** [str.replace(/[cs]/g, '')] for a character class given by a test. *)
Fixpoint removeAll (p : ascii -> bool) (s : string) : string :=
  match s with
  | EmptyString => EmptyString
  | String c r => if p c then removeAll p r else String c (removeAll p r)
  end.

(** [str.replace(/[cs]/g, by)] replacing each hit by one character. *)
Fixpoint replaceAll (p : ascii -> bool) (by_ : ascii) (s : string) : string :=
  match s with
  | EmptyString => EmptyString
  | String c r => String (if p c then by_ else c) (replaceAll p by_ r)
  end.

(** [!s] for a body field. *)
Definition falsy (f : option string) : bool :=
  match f with
  | None => true
  | Some s => String.eqb s EmptyString
  end.

(** [a || b] where [a] is a possibly absent string. *)
Definition orElse (f : option string) (d : string) : string :=
  match f with
  | Some s => if String.eqb s EmptyString then d else s
  | None => d
  end.

(** What a comparison in [remove-participant] has on its left: the value
    of calling an [async] function without [await] is a promise. *)
Inductive value : Type :=
| VString (s : string)
| VPromise (settles_to : string).

(** [a === b]: two strings are compared by content; a promise just made
    is a fresh object and is identical to nothing else. *)
Definition strict_eq (a b : value) : bool :=
  match a, b with
  | VString x, VString y => String.eqb x y
  | _, _ => false
  end.

(** The outcome of code that may throw [new Error(message)]. *)
Inductive result (A : Type) : Type :=
| Ok (a : A)
| Throw (message : string).
Arguments Ok {A} a.
Arguments Throw {A} message.

End Js.

(** ** Validation helpers *)

(** The character class of the sanitizer: less-than, greater-than, the
    quotation mark, the apostrophe and the ampersand. *)
Definition is_markup (c : ascii) : bool :=
  let n := nat_of_ascii c in
  (n =? 60) || (n =? 62) || (n =? 34) || (n =? 39) || (n =? 38).

Definition sanitizeString (str : string) (maxLength : nat) : string :=
  Js.removeAll is_markup (Js.slice0 maxLength (Js.trim str)).

Definition validateUsername (username : string) : Js.result string :=
  let sanitized := sanitizeString username 50 in
  if String.eqb sanitized EmptyString || (String.length sanitized <? 2)
  then Js.Throw "Username must be at least 2 characters"
  else Js.Ok sanitized.

Definition validatePassword (password : string) : Js.result string :=
  if String.length password <? 4
  then Js.Throw "Password must be at least 4 characters"
  else Js.Ok password.

Definition validateRoomName (name : string) : Js.result string :=
  let sanitized := sanitizeString name 100 in
  if String.eqb sanitized EmptyString || (String.length sanitized <? 1)
  then Js.Throw "Room name cannot be empty"
  else Js.Ok sanitized.

(** ** Data model *)

Inductive Status : Type := open | started.

Global Instance Status_eq_dec : EqDecision Status.
Proof. solve_decision. Defined.

(** An entry of [room.participants]. *)
Module Participant.
Record t : Type := mk {
  username : string;
  passwordHash : string;
  publicKey : string;
  keySalt : string;
  encryptedAssignment : option string   (* [None] is [null] *)
}.

Definition set_publicKey (v : string) (p : t) : t :=
  mk (username p) (passwordHash p) v (keySalt p) (encryptedAssignment p).
Definition set_keySalt (v : string) (p : t) : t :=
  mk (username p) (passwordHash p) (publicKey p) v (encryptedAssignment p).
Definition set_encryptedAssignment (v : option string) (p : t) : t :=
  mk (username p) (passwordHash p) (publicKey p) (keySalt p) v.
End Participant.

(** A value of the [rooms] map. *)
Module Room.
Record t : Type := mk {
  id : string;
  name : string;
  hostUsername : string;
  hostLoginHash : string;
  participants : list Participant.t;
  status : Status;
  createdAt : string
}.

Definition set_participants (v : list Participant.t) (r : t) : t :=
  mk (id r) (name r) (hostUsername r) (hostLoginHash r) v (status r) (createdAt r).
Definition set_status (v : Status) (r : t) : t :=
  mk (id r) (name r) (hostUsername r) (hostLoginHash r) (participants r) v (createdAt r).

Definition usernames (r : t) : list string :=
  map Participant.username (participants r).
End Room.

(** [req.body]: a JSON object of which the handlers read these fields. *)
Module Body.
Record t : Type := mk {
  name : option string;
  hostUsername : option string;
  hostPassword : option string;
  username : option string;
  password : option string;
  publicKey : option string;
  keySalt : option string
}.

End Body.

(** What a handler passes to [res.json]. *)
Module Res.
Record details : Type := mkDetails {
  id : string;
  name : string;
  hostUsername : option string;
  participants : list string;
  status : Status
}.

Inductive json : Type :=
| Error (error : string)
| ErrorWithStatus (error : string) (roomStatus : Status)
| Created (roomId roomUrl : string) (id name hostUsername : string)
    (participantCount : nat) (status : Status)
| InitRegister (keySalt : string) (alreadyExists : bool)
| Registered (alreadyRegistered isHost : bool) (message username : string)
    (keySalt : option string) (roomDetails : details)
| HostAuth (id name hostUsername : string) (participants : list (string * bool))
    (status : Status) (createdAt : string)
| Removed (message : string) (participants : list string)
| Started (message : string) (status : Status) (participantCount : nat)
| LoggedIn (username roomName keySalt : string) (encryptedAssignment : option string).
End Res.

Record Response : Type := respond { code : nat; json : Res.json }.

(** What a handler reads from outside the program while it runs. *)
Record Env : Type := mkEnv {
  ip : string;            (* [req.ip || req.connection.remoteAddress] *)
  now : Z;                (* [Date.now()] *)
  isoNow : string;        (* [new Date().toISOString()] *)
  uuid : string;          (* [uuidv4()] *)
  bcryptSalt : string;    (* the salt [bcrypt.hash] draws *)
  randomHex : string;     (* [crypto.randomBytes(32).toString('hex')] *)
  entropy : nat           (* the state of [Math.random] and of forge's PRNG *)
}.

(** ** External libraries *)

(** [bcrypt]: [hash(data, rounds)] with the salt it draws made explicit,
    and [compare(data, hash)]. *)
Class BcryptLib : Type := {
  bcrypt_hash : string -> nat -> string -> string;
  bcrypt_compare : string -> string -> bool
}.

(** The contract of [bcrypt] the program relies on: a hash verifies
    against the data it was made from. *)
Class BcryptLaws `{BcryptLib} : Prop := {
  compare_hash : forall data rounds salt,
    bcrypt_compare data (bcrypt_hash data rounds salt) = true
}.

(** Padding schemes and digests that [encrypt] and [decrypt] of
    [node-forge] accept. *)
Inductive Scheme : Type := RSAES_PKCS1_V1_5 | RSA_OAEP | RAW.
Inductive Digest : Type := sha1 | sha256 | sha512.

Definition digestLength (d : Digest) : nat :=
  match d with sha1 => 20 | sha256 => 32 | sha512 => 64 end.

(** [node-forge]: key generation from a seeded PRNG, PEM export and
    import, RSA encryption and decryption ([None] when the call throws),
    and the byte-string codecs. *)
Class ForgeLib : Type := {
  PublicKey : Type;
  PrivateKey : Type;
  generateKeyPair : nat -> string -> PublicKey * PrivateKey;
  publicKeyToPem : PublicKey -> string;
  publicKeyFromPem : string -> option PublicKey;
  rsa_encrypt : PublicKey -> string -> Scheme -> Digest -> Digest -> nat -> option string;
  rsa_decrypt : PrivateKey -> string -> Scheme -> Digest -> Digest -> option string;
  encode64 : string -> string;
  decode64 : string -> string;
  hexToBytes : string -> string
}.

(** The contracts of [node-forge] the round trip relies on.  OAEP takes a
    message of at most [k - 2 hLen - 2] bytes for a [k]-byte modulus, and
    decrypts only under the scheme and digests it was encrypted with. *)
Class ForgeLaws `{ForgeLib} : Prop := {
  pem_import_export : forall pk, publicKeyFromPem (publicKeyToPem pk) = Some pk;
  decode64_encode64 : forall bytes, decode64 (encode64 bytes) = bytes;
  oaep_decrypt_encrypt : forall bits seed md mgf1 message rnd,
    String.length message + 2 * digestLength md + 2 <= bits / 8 ->
    exists cipher,
      rsa_encrypt (fst (generateKeyPair bits seed)) message RSA_OAEP md mgf1 rnd
        = Some cipher /\
      rsa_decrypt (snd (generateKeyPair bits seed)) cipher RSA_OAEP md mgf1
        = Some message
}.

(** [CryptoJS.PBKDF2(password, salt, {keySize, iterations}).toString()]. *)
Class CryptoJSLib : Type := {
  PBKDF2 : string -> string -> nat -> N -> string
}.

(** The engine: [[...xs].sort(() => Math.random() - 0.5)], drawn on the
    given attempt from the given state of [Math.random].  The comparator
    is inconsistent, so the order is the engine's choice. *)
Class EngineLib : Type := {
  sort_random : nat -> nat -> list string -> list string
}.

(** What every engine guarantees of [sort]: the elements are rearranged. *)
Class EngineLaws `{EngineLib} : Prop := {
  sort_random_perm : forall rnd attempt xs, Permutation (sort_random rnd attempt xs) xs
}.

(** ** The server *)

(** The module-level state of [server.js]: the [rooms] map, the rate
    limiter's map, the [saveInProgress] flag, and the files under
    [DATA_DIR].  A file holds the snapshot that [JSON.stringify] wrote. *)
Record Server : Type := mkServer {
  rooms : gmap string Room.t;
  rateLimitMap : gmap string (list Z);
  saveInProgress : bool;
  disk : gmap string (gmap string Room.t)
}.

Definition set_rooms (v : gmap string Room.t) (st : Server) : Server :=
  mkServer v (rateLimitMap st) (saveInProgress st) (disk st).
Definition set_rateLimitMap (v : gmap string (list Z)) (st : Server) : Server :=
  mkServer (rooms st) v (saveInProgress st) (disk st).
Definition set_disk (v : gmap string (gmap string Room.t)) (st : Server) : Server :=
  mkServer (rooms st) (rateLimitMap st) (saveInProgress st) v.

(** The state when the process starts with no data file. *)
Definition initial : Server := mkServer ∅ ∅ false ∅.

Definition BCRYPT_ROUNDS : nat := 12.
Definition BASE_URL : string := "http://localhost:8003".
Definition DATA_DIR : string := "data".
Definition path_join (dir file : string) : string := dir +:+ "/" +:+ file.
Definition ROOMS_FILE : string := path_join DATA_DIR "rooms.json".

(** *** Persistence *)

(** The calls of [fs.promises].  [rename] is how a file is replaced in
    one step; [writeFile] truncates its target and then fills it. *)
Module Fs.
Inductive op : Type :=
| mkdir (path : string)
| readFile (path : string)
| writeFile (path : string) (data : gmap string Room.t)
| rename (from to : string).

Definition exec (d : gmap string (gmap string Room.t)) (o : op)
  : gmap string (gmap string Room.t) :=
  match o with
  | mkdir _ => d
  | readFile _ => d
  | writeFile path data => <[path := data]> d
  | rename from to =>
      match d !! from with
      | Some data => <[to := data]> (delete from d)
      | None => d
      end
  end.

(** The paths whose content an operation overwrites in place. *)
Definition writesInto (o : op) (path : string) : bool :=
  match o with
  | writeFile p _ => String.eqb p path
  | _ => false
  end.

Definition replaces (o : op) (path : string) : bool :=
  match o with
  | rename _ to => String.eqb to path
  | _ => false
  end.
End Fs.

Definition is_colon_or_dot (c : ascii) : bool :=
  let n := nat_of_ascii c in (n =? 58) || (n =? 46).

(** The body of [saveData] past its guard, as the file-system calls it
    makes in order. *)
Definition saveData_ops (st : Server) (iso : string) : list Fs.op :=
  let timestamp := Js.replaceAll is_colon_or_dot "-"%char iso in
  let backupDir := path_join DATA_DIR "backups" in
  [Fs.mkdir backupDir]
  ++ match disk st !! ROOMS_FILE with
     | Some data =>
         [Fs.readFile ROOMS_FILE;
          Fs.writeFile
            (path_join backupDir ("rooms.json." +:+ timestamp +:+ ".backup")) data]
     | None => [Fs.readFile ROOMS_FILE]
     end
  ++ [Fs.writeFile ROOMS_FILE (rooms st)].

Definition saveData (st : Server) (iso : string) : Server :=
  if saveInProgress st then st
  else set_disk (foldl Fs.exec (disk st) (saveData_ops st iso)) st.

(** *** Rate limiting *)

Definition RATE_LIMIT_WINDOW : Z := 60000.
Definition MAX_REQUESTS_PER_WINDOW : nat := 10.

Definition isRateLimited (st : Server) (env : Env) (clientId : string)
  : bool * Server :=
  let requests := default [] (rateLimitMap st !! clientId) in
  let recentRequests :=
    List.filter (fun time => (now env - time <? RATE_LIMIT_WINDOW)%Z) requests in
  if MAX_REQUESTS_PER_WINDOW <=? length recentRequests then (true, st)
  else
    (false,
     set_rateLimitMap (<[clientId := recentRequests ++ [now env]]> (rateLimitMap st)) st).

(** *** Assignments *)

Module Assignment.
(** [{username, giftRecipient}]; [shuffled[i]] past the end of the array
    is [undefined], here [None]. *)
Record t : Type := mk {
  username : string;
  giftRecipient : option string
}.
End Assignment.

Section Handlers.
Context `{BcryptLib} `{ForgeLib} `{EngineLib}.

Definition generateKeySalt (env : Env) : string := randomHex env.

Definition hashPassword (env : Env) (password : string) : string :=
  bcrypt_hash password BCRYPT_ROUNDS (bcryptSalt env).

Definition verifyPassword (password hash : string) : bool :=
  bcrypt_compare password hash.

(** [participants.find(p => p.username === name)] *)
Definition findParticipant (name : string) (ps : list Participant.t)
  : option Participant.t :=
  find (fun p => String.eqb (Participant.username p) name) ps.

(** An assignment through the reference that [find] returned: the first
    participant of that name is changed in place. *)
Fixpoint updateParticipant (name : string) (f : Participant.t -> Participant.t)
  (ps : list Participant.t) : list Participant.t :=
  match ps with
  | [] => []
  | p :: rest =>
      if String.eqb (Participant.username p) name then f p :: rest
      else p :: updateParticipant name f rest
  end.

(** The [for] loop of [generateSecretSantaAssignments], from index [i]
    on, with [givers] the elements of [usernames] from [i]: the flag
    [valid] and the array [assignments] when the loop is left. *)
Fixpoint pairUp (givers shuffled : list string) (i : nat)
  (assignments : list Assignment.t) : bool * list Assignment.t :=
  match givers with
  | [] => (true, assignments)
  | giver :: rest =>
      let receiver := shuffled !! i in
      if bool_decide (Some giver = receiver) then (false, assignments)
      else pairUp rest shuffled (S i)
             (assignments ++ [Assignment.mk giver receiver])
  end.

Definition maxAttempts : nat := 100.

(** The [while (attempts < maxAttempts)] loop, with [left] the number of
    rounds that remain, [maxAttempts - attempts]. *)
Fixpoint redraw (left attempts : nat) (rnd : nat) (usernames : list string)
  : Js.result (list Assignment.t) :=
  match left with
  | 0 => Js.Throw "Failed to generate valid Secret Santa assignments"
  | S left' =>
      let shuffled := sort_random rnd attempts usernames in
      let '(valid, assignments) := pairUp usernames shuffled 0 [] in
      if valid then Js.Ok assignments
      else redraw left' (S attempts) rnd usernames
  end.

Definition generateSecretSantaAssignments (rnd : nat)
  (participants : list Participant.t) : Js.result (list Assignment.t) :=
  let usernames := map Participant.username participants in
  redraw maxAttempts 0 rnd usernames.

(** The callback of [assignments.map] in [start]: everything inside its
    [try] that throws ends in the one [Error] of its [catch]. *)
Definition encryptAssignment (participants : list Participant.t) (rnd : nat)
  (assignment : Assignment.t) : Js.result (string * string) :=
  let failed :=
    Js.Throw ("Failed to encrypt assignment for " +:+ Assignment.username assignment) in
  match findParticipant (Assignment.username assignment) participants with
  | None => failed
  | Some participant =>
      match publicKeyFromPem (Participant.publicKey participant) with
      | None => failed
      | Some publicKey =>
          match Assignment.giftRecipient assignment with
          | None => failed
          | Some recipient =>
              match rsa_encrypt publicKey recipient RSA_OAEP sha256 sha256 rnd with
              | None => failed
              | Some encrypted =>
                  Js.Ok (Assignment.username assignment, encode64 encrypted)
              end
          end
      end
  end.

(** [assignments.map(callback)]: left to right, and over at the first
    callback that throws. *)
Fixpoint encryptAll (participants : list Participant.t) (rnd : nat)
  (assignments : list Assignment.t) : Js.result (list (string * string)) :=
  match assignments with
  | [] => Js.Ok []
  | a :: rest =>
      match encryptAssignment participants rnd a with
      | Js.Throw m => Js.Throw m
      | Js.Ok ea =>
          match encryptAll participants (S rnd) rest with
          | Js.Throw m => Js.Throw m
          | Js.Ok eas => Js.Ok (ea :: eas)
          end
      end
  end.

(** [encryptedAssignments.forEach(ea => ...)] *)
Definition commitAssignments (eas : list (string * string))
  (participants : list Participant.t) : list Participant.t :=
  foldl (fun ps ea =>
           updateParticipant (fst ea)
             (Participant.set_encryptedAssignment (Some (snd ea))) ps)
        participants eas.

Definition roomDetails (withHost : bool) (room : Room.t) : Res.details :=
  Res.mkDetails (Room.id room) (Room.name room)
    (if withHost then Some (Room.hostUsername room) else None)
    (Room.usernames room) (Room.status room).

(** The value of a field once [!field] has been ruled out. *)
Definition the (f : option string) : string := default EmptyString f.

(** [POST /api/rooms] *)
Definition createRoom (st : Server) (env : Env) (body : Body.t)
  : Server * Response :=
  let clientId := ip env in
  let '(limited, st) := isRateLimited st env clientId in
  if limited
  then (st, respond 429 (Res.Error "Too many requests. Please wait a minute."))
  else if Js.falsy (Body.name body) || Js.falsy (Body.hostUsername body)
          || Js.falsy (Body.hostPassword body)
  then (st, respond 400
              (Res.Error "Room name, host username, and password are required"))
  else
    match validateRoomName (the (Body.name body)) with
    | Js.Throw m => (st, respond 400 (Res.Error (Js.orElse (Some m) "Invalid request data")))
    | Js.Ok sanitizedName =>
    match validateUsername (the (Body.hostUsername body)) with
    | Js.Throw m => (st, respond 400 (Res.Error (Js.orElse (Some m) "Invalid request data")))
    | Js.Ok sanitizedUsername =>
    match validatePassword (the (Body.hostPassword body)) with
    | Js.Throw m => (st, respond 400 (Res.Error (Js.orElse (Some m) "Invalid request data")))
    | Js.Ok _ =>
        let roomId := uuid env in
        let hostLoginHash :=
          hashPassword env (sanitizedUsername +:+ the (Body.hostPassword body)) in
        let room :=
          Room.mk roomId sanitizedName sanitizedUsername hostLoginHash []
            open (isoNow env) in
        let st := set_rooms (<[roomId := room]> (rooms st)) st in
        let st := saveData st (isoNow env) in
        (st, respond 200
               (Res.Created roomId (BASE_URL +:+ "/room/" +:+ roomId)
                  (Room.id room) (Room.name room) (Room.hostUsername room)
                  (length (Room.participants room)) (Room.status room)))
    end end end.

(** [POST /api/rooms/:id/init-register] *)
Definition initRegister (st : Server) (env : Env) (roomId : string)
  (body : Body.t) : Server * Response :=
  if Js.falsy (Body.username body) || Js.falsy (Body.password body)
  then (st, respond 400 (Res.Error "Username and password are required"))
  else
    match rooms st !! roomId with
    | None => (st, respond 404 (Res.Error "Room not found"))
    | Some room =>
    if bool_decide (Room.status room = started)
    then (st, respond 400
                (Res.Error "Room has already started. Registration is closed."))
    else
    match validateUsername (the (Body.username body)) with
    | Js.Throw m => (st, respond 400 (Res.Error (Js.orElse (Some m) "Invalid request data")))
    | Js.Ok sanitizedUsername =>
    match validatePassword (the (Body.password body)) with
    | Js.Throw m => (st, respond 400 (Res.Error (Js.orElse (Some m) "Invalid request data")))
    | Js.Ok _ =>
        match findParticipant sanitizedUsername (Room.participants room) with
        | Some existingParticipant =>
            if negb (verifyPassword (the (Body.password body))
                       (Participant.passwordHash existingParticipant))
            then (st, respond 401 (Res.Error "Invalid password for this username"))
            else (st, respond 200
                        (Res.InitRegister
                           (Participant.keySalt existingParticipant) true))
        | None =>
            let keySalt := generateKeySalt env in
            (st, respond 200 (Res.InitRegister keySalt false))
        end
    end end end.

(** The host check of [register]: the sanitized username and the
    password, concatenated, against the room's [hostLoginHash]. *)
Definition registerIsHost (room : Room.t) (sanitizedUsername password : string)
  : bool :=
  let hostLoginHash := sanitizedUsername +:+ password in
  verifyPassword hostLoginHash (Room.hostLoginHash room).

(** [POST /api/rooms/:id/register] *)
Definition register (st : Server) (env : Env) (roomId : string)
  (body : Body.t) : Server * Response :=
  let clientId := ip env in
  let '(limited, st) := isRateLimited st env clientId in
  if limited
  then (st, respond 429 (Res.Error "Too many requests. Please wait a minute."))
  else if Js.falsy (Body.username body) || Js.falsy (Body.password body)
  then (st, respond 400 (Res.Error "Username and password are required"))
  else
    match rooms st !! roomId with
    | None => (st, respond 404 (Res.Error "Room not found"))
    | Some room =>
    if bool_decide (Room.status room = started)
    then (st, respond 400
                (Res.Error "Room has already started. Registration is closed."))
    else
    match validateUsername (the (Body.username body)) with
    | Js.Throw m => (st, respond 400 (Res.Error (Js.orElse (Some m) "Invalid request data")))
    | Js.Ok sanitizedUsername =>
    match validatePassword (the (Body.password body)) with
    | Js.Throw m => (st, respond 400 (Res.Error (Js.orElse (Some m) "Invalid request data")))
    | Js.Ok _ =>
        let password := the (Body.password body) in
        let isHost := registerIsHost room sanitizedUsername password in
        if isHost && bool_decide (is_Some (findParticipant sanitizedUsername
                                             (Room.participants room)))
        then (st, respond 200
                    (Res.Registered true true "Host authenticated successfully"
                       sanitizedUsername None (roomDetails true room)))
        else
        match findParticipant sanitizedUsername (Room.participants room) with
        | Some existingParticipant =>
            if negb (verifyPassword password
                       (Participant.passwordHash existingParticipant))
            then (st, respond 401 (Res.Error "Invalid password for this username"))
            else
              if negb (Js.falsy (Body.publicKey body))
                 && negb (String.eqb (the (Body.publicKey body)) "temp")
              then
                let change p :=
                  let p := Participant.set_publicKey (the (Body.publicKey body)) p in
                  if negb (Js.falsy (Body.keySalt body))
                  then Participant.set_keySalt (the (Body.keySalt body)) p
                  else p in
                let room :=
                  Room.set_participants
                    (updateParticipant sanitizedUsername change
                       (Room.participants room)) room in
                let st := set_rooms (<[roomId := room]> (rooms st)) st in
                let st := saveData st (isoNow env) in
                (st, respond 200
                       (Res.Registered true false "Signed in successfully"
                          sanitizedUsername
                          (Some (Participant.keySalt (change existingParticipant)))
                          (roomDetails false room)))
              else
                (st, respond 200
                       (Res.Registered true false "Signed in successfully"
                          sanitizedUsername
                          (Some (Participant.keySalt existingParticipant))
                          (roomDetails false room)))
        | None =>
            if Js.falsy (Body.publicKey body)
            then (st, respond 400
                        (Res.Error "Public key is required for registration"))
            else
              let keySalt := Js.orElse (Body.keySalt body) (generateKeySalt env) in
              let passwordHash := hashPassword env password in
              let room :=
                Room.set_participants
                  (Room.participants room
                   ++ [Participant.mk sanitizedUsername passwordHash
                         (the (Body.publicKey body)) keySalt None]) room in
              let st := set_rooms (<[roomId := room]> (rooms st)) st in
              let st := saveData st (isoNow env) in
              (st, respond 200
                     (Res.Registered false isHost "Registered successfully"
                        sanitizedUsername (Some keySalt) (roomDetails true room)))
        end
    end end end.

(** [POST /api/rooms/:id/host-auth] *)
Definition hostAuth (st : Server) (env : Env) (roomId : string)
  (body : Body.t) : Server * Response :=
  if Js.falsy (Body.username body) || Js.falsy (Body.password body)
  then (st, respond 400 (Res.Error "Username and password are required"))
  else
    match rooms st !! roomId with
    | None => (st, respond 404 (Res.Error "Room not found"))
    | Some room =>
        let loginHash := the (Body.username body) +:+ the (Body.password body) in
        if negb (verifyPassword loginHash (Room.hostLoginHash room))
        then (st, respond 401 (Res.Error "Invalid host credentials"))
        else
          (st, respond 200
                 (Res.HostAuth (Room.id room) (Room.name room)
                    (Room.hostUsername room)
                    (map (fun p =>
                            (Participant.username p,
                             negb (Js.falsy (Participant.encryptedAssignment p))))
                       (Room.participants room))
                    (Room.status room) (Room.createdAt room)))
    end.

(** [POST /api/rooms/:id/remove-participant] *)
Definition removeParticipant (st : Server) (env : Env) (roomId : string)
  (body : Body.t) : Server * Response :=
  if Js.falsy (Body.hostUsername body) || Js.falsy (Body.hostPassword body)
     || Js.falsy (Body.username body)
  then (st, respond 400
              (Res.Error "Host username, password and participant username are required"))
  else
    match rooms st !! roomId with
    | None => (st, respond 404 (Res.Error "Room not found"))
    | Some room =>
        (* [hashPassword] is [async] and is called without [await] *)
        let loginHash :=
          Js.VPromise (hashPassword env (the (Body.hostUsername body)
                                          +:+ the (Body.hostPassword body))) in
        if negb (Js.strict_eq loginHash (Js.VString (Room.hostLoginHash room)))
        then (st, respond 401 (Res.Error "Invalid host credentials"))
        else if bool_decide (Room.status room = started)
        then (st, respond 400
                    (Res.Error "Cannot remove participants after room has started"))
        else
          let username := the (Body.username body) in
          let initialCount := length (Room.participants room) in
          let room :=
            Room.set_participants
              (List.filter
                 (fun p => negb (String.eqb (Participant.username p) username))
                 (Room.participants room)) room in
          let st := set_rooms (<[roomId := room]> (rooms st)) st in
          if length (Room.participants room) =? initialCount
          then (st, respond 404 (Res.Error "Participant not found"))
          else
            let st := saveData st (isoNow env) in
            (st, respond 200
                   (Res.Removed "Participant removed" (Room.usernames room)))
    end.

(** [POST /api/rooms/:id/start] *)
Definition start (st : Server) (env : Env) (roomId : string)
  (body : Body.t) : Server * Response :=
  if Js.falsy (Body.hostUsername body) || Js.falsy (Body.hostPassword body)
  then (st, respond 400 (Res.Error "Host username and password are required"))
  else
    match rooms st !! roomId with
    | None => (st, respond 404 (Res.Error "Room not found"))
    | Some room =>
        let loginHash :=
          the (Body.hostUsername body) +:+ the (Body.hostPassword body) in
        if negb (verifyPassword loginHash (Room.hostLoginHash room))
        then (st, respond 401 (Res.Error "Invalid host credentials"))
        else if bool_decide (Room.status room = started)
        then (st, respond 400 (Res.Error "Room has already started"))
        else if length (Room.participants room) <? 2
        then (st, respond 400 (Res.Error "At least 2 participants are required"))
        else
          let missingKeys :=
            List.filter
              (fun p => String.eqb (Participant.publicKey p) EmptyString)
              (Room.participants room) in
          if 0 <? length missingKeys
          then (st, respond 400
                      (Res.Error
                         ("Some participants are missing public keys: "
                          +:+ String.concat ", " (map Participant.username missingKeys)
                          +:+ ". They need to re-register.")))
          else
            match generateSecretSantaAssignments (entropy env)
                    (Room.participants room) with
            | Js.Throw m =>
                (st, respond 500 (Res.Error (Js.orElse (Some m) "Internal server error")))
            | Js.Ok assignments =>
                match encryptAll (Room.participants room) (entropy env)
                        assignments with
                | Js.Throw m =>
                    (st, respond 500
                           (Res.Error (Js.orElse (Some m) "Internal server error")))
                | Js.Ok encryptedAssignments =>
                    let room :=
                      Room.set_participants
                        (commitAssignments encryptedAssignments
                           (Room.participants room)) room in
                    let room := Room.set_status started room in
                    let st := set_rooms (<[roomId := room]> (rooms st)) st in
                    let st := saveData st (isoNow env) in
                    (st, respond 200
                           (Res.Started "Room started and assignments generated"
                              (Room.status room)
                              (length (Room.participants room))))
                end
            end
    end.

(** [POST /api/rooms/:id/login] *)
Definition login (st : Server) (env : Env) (roomId : string)
  (body : Body.t) : Server * Response :=
  if Js.falsy (Body.username body) || Js.falsy (Body.password body)
  then (st, respond 400 (Res.Error "Username and password are required"))
  else
    match rooms st !! roomId with
    | None => (st, respond 404 (Res.Error "Room not found"))
    | Some room =>
        match findParticipant (the (Body.username body))
                (Room.participants room) with
        | None => (st, respond 404 (Res.Error "User not found in this room"))
        | Some participant =>
            if negb (verifyPassword (the (Body.password body))
                       (Participant.passwordHash participant))
            then (st, respond 401 (Res.Error "Invalid password"))
            else if negb (bool_decide (Room.status room = started))
            then (st, respond 400
                        (Res.ErrorWithStatus "Room has not started yet"
                           (Room.status room)))
            else
              (st, respond 200
                     (Res.LoggedIn (Participant.username participant)
                        (Room.name room) (Participant.keySalt participant)
                        (Participant.encryptedAssignment participant)))
        end
    end.

(** The requests that reach the handlers above. *)
Inductive Request : Type :=
| PostRooms (body : Body.t)
| PostInitRegister (roomId : string) (body : Body.t)
| PostRegister (roomId : string) (body : Body.t)
| PostHostAuth (roomId : string) (body : Body.t)
| PostRemoveParticipant (roomId : string) (body : Body.t)
| PostStart (roomId : string) (body : Body.t)
| PostLogin (roomId : string) (body : Body.t).

Definition handle (st : Server) (call : Env * Request) : Server * Response :=
  let '(env, req) := call in
  match req with
  | PostRooms body => createRoom st env body
  | PostInitRegister roomId body => initRegister st env roomId body
  | PostRegister roomId body => register st env roomId body
  | PostHostAuth roomId body => hostAuth st env roomId body
  | PostRemoveParticipant roomId body => removeParticipant st env roomId body
  | PostStart roomId body => start st env roomId body
  | PostLogin roomId body => login st env roomId body
  end.

(** The state after a sequence of requests, served one after another. *)
Definition serve (st : Server) (calls : list (Env * Request)) : Server :=
  foldl (fun st call => fst (handle st call)) st calls.

(** ** The client ([public/shared-utils.js]) *)

Context `{CryptoJSLib}.

Definition deriveKeyPairFromPassword (username password roomId keySalt : string)
  : PublicKey * PrivateKey :=
  let seed := username +:+ password +:+ roomId in
  let keyMaterial := PBKDF2 seed keySalt (512 / 32) 100000%N in
  let seedBytes := hexToBytes keyMaterial in
  generateKeyPair 2048 seedBytes.

Definition exportPublicKey (publicKey : PublicKey) : string :=
  publicKeyToPem publicKey.


End Handlers.

(** ** The rest of the program *)

(** *** Loading the registry at start-up *)

(** What [fs.readFile(ROOMS_FILE, 'utf8')] resolves to: the text that
    [JSON.stringify] made of a snapshot, or a text that [JSON.parse]
    rejects. *)
Inductive FileText : Type :=
| Stringified (snapshot : gmap string Room.t)
| Unparsable (text : string).

Definition JSON_parse (text : FileText) : Js.result (gmap string Room.t) :=
  match text with
  | Stringified snapshot => Js.Ok snapshot
  | Unparsable _ => Js.Throw "Unexpected token"
  end.

(** [loadData], given what [readFile] did: [None] when it rejected (no
    such file), in which case the text is that of the empty object. *)
Definition loadData (st : Server) (file : option FileText) : Server :=
  let roomsData := default (Stringified ∅) file in
  let roomsObj :=
    match JSON_parse roomsData with
    | Js.Ok parsed => parsed
    | Js.Throw _ => ∅
    end in
  set_rooms
    (foldl (fun registry entry => <[fst entry := snd entry]> registry)
       (rooms st) (map_to_list roomsObj))
    st.

(** The live file as [readFile] finds it on a disk that only [saveData]
    wrote. *)
Definition readRoomsFile (d : gmap string (gmap string Room.t)) : option FileText :=
  Stringified <$> d !! ROOMS_FILE.

(** A new process on the given disk: the module-level state as
    [server.js] initialises it, then [loadData] from the [listen]
    callback. *)
Definition boot (d : gmap string (gmap string Room.t)) : Server :=
  loadData (mkServer ∅ ∅ false d) (readRoomsFile d).

(** *** The registration and login flows of the client *)

(** [response.ok] *)
Definition ok (response : Response) : bool :=
  (200 <=? code response) && (code response <=? 299).

(** [data.error], [data.keySalt] and [data.encryptedAssignment] of a
    parsed answer; [None] where the answer has no such field (or has
    [null] in it). *)
Definition errorOf (data : Res.json) : option string :=
  match data with
  | Res.Error error => Some error
  | Res.ErrorWithStatus error _ => Some error
  | _ => None
  end.

Definition keySaltOf (data : Res.json) : option string :=
  match data with
  | Res.InitRegister keySalt _ => Some keySalt
  | Res.Registered _ _ _ _ keySalt _ => keySalt
  | Res.LoggedIn _ _ keySalt _ => Some keySalt
  | _ => None
  end.


Section Client.
Context `{BcryptLib} `{ForgeLib} `{EngineLib} `{CryptoJSLib}.

(** [JSON.stringify({ username, password })] *)
Definition credentialsBody (username password : string) : Body.t :=
  Body.mk None None None (Some username) (Some password) None None.

(** [registerUser]: the two requests it sends reach the handlers with the
    environments [env1] and [env2]; the calls that only repaint the
    button are left out.  [new Error(undefined)] has the empty message. *)
Definition registerUser (st : Server) (env1 env2 : Env)
  (roomId username password : string) : Server * Js.result Res.json :=
  let '(st, initResponse) :=
    initRegister st env1 roomId (credentialsBody username password) in
  let initData := json initResponse in
  if negb (ok initResponse)
  then (st, Js.Throw (default EmptyString (errorOf initData)))
  else
    let keypair :=
      deriveKeyPairFromPassword username password roomId
        (default EmptyString (keySaltOf initData)) in
    let publicKeyPem := exportPublicKey (fst keypair) in
    let '(st, response) :=
      register st env2 roomId
        (Body.mk None None None (Some username) (Some password)
           (Some publicKeyPem) (keySaltOf initData)) in
    let data := json response in
    if negb (ok response)
    then (st, Js.Throw (default EmptyString (errorOf data)))
    else (st, Js.Ok data).


End Client.

(** ** Vocabulary of the properties *)

(** No position holds the same name in both lists. *)
Definition deranged (givers receivers : list string) : Prop :=
  Forall2 (fun giver receiver => giver <> receiver) givers receivers.

Global Instance deranged_dec givers receivers : Decision (deranged givers receivers).
Proof. unfold deranged. apply _. Defined.

(** The assignments that pair two lists position by position. *)
Definition paired (givers receivers : list string) : list Assignment.t :=
  zip_with (fun giver receiver => Assignment.mk giver (Some receiver))
    givers receivers.

(** The invariant of the data model: a started room has an assignment on
    every participant, an open room on none. *)
Definition assignment_invariant (room : Room.t) : Prop :=
  (Room.status room = started ->
   Forall (fun p => Participant.encryptedAssignment p <> None)
     (Room.participants room))
  /\ (Room.status room = open ->
      Forall (fun p => Participant.encryptedAssignment p = None)
        (Room.participants room)).

(** What the handlers maintain: the above, and usernames that are
    pairwise distinct within the room. *)
Definition room_ok (room : Room.t) : Prop :=
  NoDup (Room.usernames room) /\ assignment_invariant room.


Section StartVocabulary.
Context `{BcryptLib} `{ForgeLib} `{EngineLib}.

(** The requests that get past the guards of [start]. *)
Definition startAdmitted (st : Server) (roomId : string) (body : Body.t)
  (room : Room.t) : Prop :=
  rooms st !! roomId = Some room
  /\ Js.falsy (Body.hostUsername body) = false
  /\ Js.falsy (Body.hostPassword body) = false
  /\ verifyPassword (the (Body.hostUsername body) +:+ the (Body.hostPassword body))
       (Room.hostLoginHash room) = true
  /\ Room.status room = open
  /\ 2 <= length (Room.participants room)
  /\ Forall (fun p => Participant.publicKey p <> EmptyString)
       (Room.participants room).

(** Generation throws, or some assignment's encryption throws. *)
Definition startFails (env : Env) (room : Room.t) : Prop :=
  (exists m,
     generateSecretSantaAssignments (entropy env) (Room.participants room)
     = Js.Throw m)
  \/ (exists assignments i a m,
        generateSecretSantaAssignments (entropy env) (Room.participants room)
        = Js.Ok assignments
        /\ assignments !! i = Some a
        /\ encryptAssignment (Room.participants room) (entropy env + i) a
           = Js.Throw m).

End StartVocabulary.

(** Where [saveData] keeps the copy of the file it is about to overwrite. *)
Definition backupPath (iso : string) : string :=
  path_join (path_join DATA_DIR "backups")
    ("rooms.json." +:+ Js.replaceAll is_colon_or_dot "-"%char iso +:+ ".backup").

(** What re-registration writes on the participant it found. *)
Definition reregistered (body : Body.t) (p : Participant.t) : Participant.t :=
  Participant.mk (Participant.username p) (Participant.passwordHash p)
    (the (Body.publicKey body))
    (Js.orElse (Body.keySalt body) (Participant.keySalt p))
    (Participant.encryptedAssignment p).

(** *** Vocabulary of the further properties *)

(** A string in which no markup character occurs. *)
Definition markup_free (s : string) : Prop :=
  Forall (fun c => is_markup c = false) (list_ascii_of_string s).

(** What a username is once it has passed [validateUsername]. *)
Definition identity_ok (n : string) : Prop :=
  2 <= String.length n <= 50 /\ markup_free n.

(** Every room is stored under its own id, and its name, its host's
    username and its participants' usernames are validated strings. *)
Definition names_ok (st : Server) : Prop :=
  forall roomId room,
    rooms st !! roomId = Some room ->
    Room.id room = roomId
    /\ (1 <= String.length (Room.name room) <= 100 /\ markup_free (Room.name room))
    /\ identity_ok (Room.hostUsername room)
    /\ Forall identity_ok (Room.usernames room).

(** The times of the calls that [isRateLimited] admits, among calls made
    for one client in the given environments, one after another. *)
Fixpoint admitted (st : Server) (clientId : string) (envs : list Env) : list Z :=
  match envs with
  | [] => []
  | env :: rest =>
      let '(limited, st') := isRateLimited st env clientId in
      if limited then admitted st' clientId rest
      else now env :: admitted st' clientId rest
  end.

(** The times that lie in the window of [RATE_LIMIT_WINDOW] milliseconds
    that ends at [T]. *)
Definition in_window (T t : Z) : bool :=
  ((T - RATE_LIMIT_WINDOW <? t) && (t <=? T))%Z.

(** No flush is under way, and the live file holds the registry (or there
    is no file yet and the registry is empty). *)
Definition flushed (st : Server) : Prop :=
  saveInProgress st = false
  /\ (disk st !! ROOMS_FILE = Some (rooms st)
      \/ (rooms st = ∅ /\ disk st !! ROOMS_FILE = None)).

(** The room a request is about: for a creation, the id it draws. *)
Definition addressed (call : Env * Request) : string :=
  match snd call with
  | PostRooms _ => uuid (fst call)
  | PostInitRegister roomId _ => roomId
  | PostRegister roomId _ => roomId
  | PostHostAuth roomId _ => roomId
  | PostRemoveParticipant roomId _ => roomId
  | PostStart roomId _ => roomId
  | PostLogin roomId _ => roomId
  end.

(** ** Reference models of the libraries

    One small executable model per interface.  They serve to run the
    handlers on concrete requests; that each meets the contract of its
    interface is proved with the properties below. *)

Module Reference.

Fixpoint stripPrefix (p s : string) : option string :=
  match p with
  | EmptyString => Some s
  | String a p' =>
      match s with
      | String b s' => if Ascii.eqb a b then stripPrefix p' s' else None
      | EmptyString => None
      end
  end.

(** A hash that records the data behind a version tag. *)
Global Instance bcrypt : BcryptLib := {|
  bcrypt_hash data rounds salt := "$2b$" +:+ data;
  bcrypt_compare data hash := String.eqb ("$2b$" +:+ data) hash
|}.

Definition pemHeader : string := "-----BEGIN PUBLIC KEY-----".

(** Keys are the seed they were generated from; a cipher text names the
    key it was made under. *)
Global Instance forge : ForgeLib := {|
  PublicKey := string;
  PrivateKey := string;
  generateKeyPair bits seed := (seed, seed);
  publicKeyToPem pk := pemHeader +:+ pk;
  publicKeyFromPem pem := stripPrefix pemHeader pem;
  rsa_encrypt pk message scheme md mgf1 rnd := Some ((pk +:+ ":") +:+ message);
  rsa_decrypt sk cipher scheme md mgf1 := stripPrefix (sk +:+ ":") cipher;
  encode64 bytes := bytes;
  decode64 text := text;
  hexToBytes hex := hex
|}.

Global Instance cryptojs : CryptoJSLib := {|
  PBKDF2 password salt keySize iterations := password +:+ salt
|}.

Definition rotate (xs : list string) : list string :=
  match xs with
  | [] => []
  | x :: rest => rest ++ [x]
  end.

(** An engine whose shuffle leaves the array as it is when [Math.random]
    is in state 0 and on every other draw, and rotates it otherwise. *)
Global Instance engine : EngineLib := {|
  sort_random rnd attempt xs :=
    match rnd with
    | 0 => xs
    | _ => if Nat.even (rnd + attempt) then xs else rotate xs
    end
|}.

End Reference.

(** ** Sample sessions *)

(** A session on the reference models: Alice creates a room and joins
    it, Bob joins, Alice starts the room. *)
Module Demo.

Definition env : Env :=
  mkEnv "10.0.0.1" 1000 "2025-12-07T12:00:00.000Z" "room-1" "salt" "a7f9" 1.

Definition credentials (username password : string) : Body.t :=
  Body.mk None None None (Some username) (Some password) None None.

Definition registration (username password key salt : string) : Body.t :=
  Body.mk None None None (Some username) (Some password)
    (Some (Reference.pemHeader +:+ key)) (Some salt).

Definition hostCredentials (username password : string) : Body.t :=
  Body.mk None (Some username) (Some password) None None None None.

Definition removal (hostUsername hostPassword target : string) : Body.t :=
  Body.mk None (Some hostUsername) (Some hostPassword) (Some target) None None None.

Definition creation : Body.t :=
  Body.mk (Some "Office Party") (Some "Alice") (Some "alicepw") None None None None.

Definition joined : list (Env * Request) :=
  [(env, PostRooms creation);
   (env, PostRegister "room-1" (registration "Alice" "alicepw" "ka" "s1"));
   (env, PostRegister "room-1" (registration "Bob" "bobpw" "kb" "s2"))].


(** The room once both have joined. *)
Definition openRoom : Room.t :=
  Room.mk "room-1" "Office Party" "Alice" "$2b$Alicealicepw"
    [Participant.mk "Alice" "$2b$alicepw" (Reference.pemHeader +:+ "ka") "s1" None;
     Participant.mk "Bob" "$2b$bobpw" (Reference.pemHeader +:+ "kb") "s2" None]
    open "2025-12-07T12:00:00.000Z".


End Demo.

(** Three participants before the room starts. *)
Definition alice : Participant.t :=
  Participant.mk "Alice" "$2b$alicepw" (Reference.pemHeader +:+ "ka") "s1" None.
Definition bob : Participant.t :=
  Participant.mk "Bob" "$2b$bobpw" (Reference.pemHeader +:+ "kb") "s2" None.
Definition carol : Participant.t :=
  Participant.mk "Carol" "$2b$carolpw" (Reference.pemHeader +:+ "kc") "s3" None.

(** A room in which Bob's stored public key is not a PEM block. *)
Definition brokenKeyState : Server :=
  serve initial
    [(Demo.env, PostRooms Demo.creation);
     (Demo.env, PostRegister "room-1" (Demo.registration "Alice" "alicepw" "ka" "s1"));
     (Demo.env, PostRegister "room-1"
                  (Body.mk None None None (Some "Bob") (Some "bobpw")
                     (Some "not a PEM block") (Some "s2")))].

Definition brokenKeyRoom : Room.t :=
  Room.mk "room-1" "Office Party" "Alice" "$2b$Alicealicepw"
    [Participant.mk "Alice" "$2b$alicepw" (Reference.pemHeader +:+ "ka") "s1" None;
     Participant.mk "Bob" "$2b$bobpw" "not a PEM block" "s2" None]
    open "2025-12-07T12:00:00.000Z".

(** Bob, who joined with salt "s2", registers again with his password, a
    new key and the salt "s9". *)
Definition bobAgain : Body.t := Demo.registration "Bob" "bobpw" "kb2" "s9".

Definition bobBefore : Participant.t := bob.

(** A room whose host chose a password that starts with a markup
    character. *)
Definition markupHost : Server :=
  serve initial
    [(Demo.env,
      PostRooms (Body.mk (Some "Party") (Some "Al") (Some "<secret")
                   None None None None))].





(** Twelve calls from one address, one second apart. *)
Definition burst : list Env :=
  map (fun k => mkEnv "10.0.0.1" (1000 * Z.of_nat k) "" "" "" "" 0) (seq 0 12).

(** Two rooms, created one after the other; Alice has joined the first. *)
Definition twoRooms : Server :=
  serve initial
    [(Demo.env, PostRooms Demo.creation);
     (mkEnv "10.0.0.2" 2000 "2025-12-08T09:00:00.000Z" "room-2" "salt" "b8e0" 1,
      PostRooms (Body.mk (Some "Family") (Some "Dora") (Some "dorapw")
                   None None None None));
     (Demo.env, PostRegister "room-1" (Demo.registration "Alice" "alicepw" "ka" "s1"))].


(** A creation whose name and host username are changed by the
    sanitizer. *)
Definition paddedCreation : Body.t :=
  Body.mk (Some "  <b>Office</b> Party ") (Some " Alice ") (Some "alicepw")
    None None None None.

(** The sample room with public keys that the participants derived from
    their credentials, as [registerUser] does. *)
Definition derivedRegistration (username password salt : string) : Body.t :=
  Body.mk None None None (Some username) (Some password)
    (Some (exportPublicKey
             (fst (deriveKeyPairFromPassword username password "room-1" salt))))
    (Some salt).




(** The sample room right after its creation, and the environment of the
    second request of a registration. *)
Definition created : Server := serve initial [(Demo.env, PostRooms Demo.creation)].

Definition laterEnv : Env :=
  mkEnv "10.0.0.3" 3000 "2025-12-07T12:00:03.000Z" "unused" "salt" "c3d4" 5.

Definition carolDerived : Participant.t :=
  Participant.mk "Carol" (hashPassword laterEnv "carolpw")
    (exportPublicKey
       (fst (deriveKeyPairFromPassword " Carol" "carolpw" "room-1" "a7f9")))
    "a7f9" None.

(** ** The reference models meet their contracts *)

Lemma stripPrefix_append p s : Reference.stripPrefix p (p +:+ s) = Some s.
Proof.
  induction p as [|a p IH]; simpl; [done|].
  by rewrite Ascii.eqb_refl.
Qed.

Global Instance reference_bcrypt_laws : BcryptLaws.
Proof. constructor. intros data rounds salt. simpl. apply String.eqb_refl. Qed.

Global Instance reference_forge_laws : ForgeLaws.
Proof.
  constructor.
  - intros pk. apply stripPrefix_append.
  - done.
  - intros bits seed md mgf1 message rnd _. eexists. split; [done|].
    apply stripPrefix_append.
Qed.

Global Instance reference_engine_laws : EngineLaws.
Proof.
  constructor. intros rnd attempt xs. simpl.
  destruct rnd; [done|]. destruct (Nat.even _); [done|].
  destruct xs as [|x rest]; [done|]. simpl.
  symmetry. apply Permutation_cons_append.
Qed.

(** ** Properties *)

(** *** Encrypt, then decrypt with the derived key (C1) *)

Section RoundTrip.
Context `{ForgeLib} `{!ForgeLaws} `{CryptoJSLib}.

Lemma length_removeAll p s : String.length (Js.removeAll p s) <= String.length s.
Proof.
  induction s as [|c s IH]; simpl; [done|]. destruct (p c); simpl; lia.
Qed.

Lemma length_slice0 n : forall s, String.length (Js.slice0 n s) <= n.
Proof.
  induction n as [|n IH]; intros [|c s]; simpl; try lia.
  specialize (IH s). lia.
Qed.

Lemma validateUsername_length raw identity :
  validateUsername raw = Js.Ok identity ->
  2 <= String.length identity <= 50.
Proof.
  unfold validateUsername, sanitizeString.
  pose proof (length_removeAll is_markup (Js.slice0 50 (Js.trim raw))) as Hr.
  pose proof (length_slice0 50 (Js.trim raw)) as Hs.
  remember (Js.slice0 50 (Js.trim raw)) as cut.
  destruct (_ || _) eqn:Hshort; [done|]. intros [= <-].
  apply orb_false_elim in Hshort as [_ Hlt]. apply Nat.ltb_ge in Hlt. lia.
Qed.


End RoundTrip.



(** *** The assignment generator (C2) *)

Section Generator.
Context `{EngineLib}.

Lemma drop_cons_inv {A} (l : list A) i x rest :
  drop i l = x :: rest -> l !! i = Some x /\ drop (S i) l = rest.
Proof.
  intros Hd. split.
  - pose proof (lookup_drop l i 0) as Hl.
    rewrite Hd in Hl. simpl in Hl. rewrite Nat.add_0_r in Hl. by symmetry.
  - change (S i) with (1 + i). rewrite Nat.add_comm, <- drop_drop, Hd. done.
Qed.

Lemma pairUp_valid givers : forall shuffled i rest acc,
  drop i shuffled = rest ->
  deranged givers rest ->
  pairUp givers shuffled i acc = (true, acc ++ paired givers rest).
Proof.
  induction givers as [|g givers IH]; intros shuffled i rest acc Hd Hder.
  - inversion Hder. simpl. by rewrite app_nil_r.
  - inversion Hder as [|? r ? rest' Hne Hder' E1 E2]; subst.
    symmetry in E2. destruct (drop_cons_inv _ _ _ _ E2) as [Hl Hd'].
    simpl. rewrite Hl.
    rewrite bool_decide_eq_false_2 by congruence.
    rewrite (IH shuffled (S i) rest' _ Hd' Hder').
    by rewrite <- app_assoc.
Qed.

Lemma pairUp_invalid givers : forall shuffled i rest acc,
  drop i shuffled = rest ->
  length givers = length rest ->
  ~ deranged givers rest ->
  fst (pairUp givers shuffled i acc) = false.
Proof.
  induction givers as [|g givers IH]; intros shuffled i rest acc Hd Hlen Hnot.
  - destruct rest; [|done]. exfalso. apply Hnot. constructor.
  - destruct rest as [|r rest']; [done|].
    destruct (drop_cons_inv _ _ _ _ Hd) as [Hl Hd'].
    simpl. rewrite Hl.
    destruct (decide (g = r)) as [->|Hne].
    + by rewrite bool_decide_eq_true_2.
    + rewrite bool_decide_eq_false_2 by congruence.
      apply (IH shuffled (S i) rest'); [done|simpl in Hlen; lia|].
      intros Hder. apply Hnot. by constructor.
Qed.

(** What the redraw loop returns, by the draws it makes. *)
Lemma redraw_spec rnd usernames : forall left attempts,
  (forall j, j < left ->
     length (sort_random rnd (attempts + j) usernames) = length usernames) ->
  match redraw left attempts rnd usernames with
  | Js.Ok assignments =>
      exists k, k < left
        /\ deranged usernames (sort_random rnd (attempts + k) usernames)
        /\ (forall j, j < k ->
              ~ deranged usernames (sort_random rnd (attempts + j) usernames))
        /\ assignments
           = paired usernames (sort_random rnd (attempts + k) usernames)
  | Js.Throw m =>
      m = "Failed to generate valid Secret Santa assignments"
      /\ forall k, k < left ->
           ~ deranged usernames (sort_random rnd (attempts + k) usernames)
  end.
Proof.
  induction left as [|left IH]; intros attempts Hlen.
  - simpl. split; [done|]. intros k Hk. lia.
  - simpl.
    destruct (decide (deranged usernames (sort_random rnd attempts usernames)))
      as [Hder|Hnot].
    + rewrite (pairUp_valid usernames (sort_random rnd attempts usernames) 0
                 (sort_random rnd attempts usernames) [] eq_refl Hder). simpl.
      exists 0. rewrite Nat.add_0_r. repeat split; [lia|done|intros; lia].
    + pose proof (pairUp_invalid usernames (sort_random rnd attempts usernames) 0
                    (sort_random rnd attempts usernames) [] eq_refl) as Hinv.
      specialize (Hlen 0 ltac:(lia)) as Hlen0. rewrite Nat.add_0_r in Hlen0.
      specialize (Hinv (eq_sym Hlen0) Hnot).
      destruct (pairUp usernames _ 0 []) as [valid assignments].
      simpl in Hinv. subst valid.
      specialize (IH (S attempts)).
      assert (Hlen' : forall j, j < left ->
                length (sort_random rnd (S attempts + j) usernames)
                = length usernames).
      { intros j Hj. replace (S attempts + j) with (attempts + S j) by lia.
        apply Hlen. lia. }
      specialize (IH Hlen').
      destruct (redraw left (S attempts) rnd usernames) as [assignments'|m].
      * destruct IH as (k & Hk & Hder & Hbefore & ->).
        exists (S k). replace (attempts + S k) with (S attempts + k) by lia.
        repeat split; [lia|done|].
        intros j Hj. destruct j as [|j].
        -- by rewrite Nat.add_0_r.
        -- replace (attempts + S j) with (S attempts + j) by lia.
           apply Hbefore. lia.
      * destruct IH as [-> Hall]. split; [done|].
        intros k Hk. destruct k as [|k].
        -- by rewrite Nat.add_0_r.
        -- replace (attempts + S k) with (S attempts + k) by lia.
           apply Hall. lia.
Qed.

Lemma paired_usernames givers receivers :
  length givers = length receivers ->
  map Assignment.username (paired givers receivers) = givers.
Proof.
  revert receivers. induction givers as [|g givers IH]; intros [|r rs] Hl;
    simpl in *; try done. f_equal. apply IH. lia.
Qed.

Lemma paired_recipients givers receivers :
  length givers = length receivers ->
  map Assignment.giftRecipient (paired givers receivers) = map Some receivers.
Proof.
  revert receivers. induction givers as [|g givers IH]; intros [|r rs] Hl;
    simpl in *; try done. f_equal. apply IH. lia.
Qed.

Lemma paired_no_self givers receivers :
  deranged givers receivers ->
  Forall (fun a => Assignment.giftRecipient a <> Some (Assignment.username a))
    (paired givers receivers).
Proof.
  induction 1 as [|g r gs rs Hne _ IH]; simpl; constructor; [|done].
  simpl. congruence.
Qed.

End Generator.

(** C2.  For participants with pairwise distinct usernames, at least two
    of them: whenever [generateSecretSantaAssignments] returns, its result
    pairs the usernames, in their order, with a permutation of the
    usernames (so every giver has exactly one receiver and every username
    is received exactly once) and no giver is paired with themselves; and
    the function throws exactly when each of the first [maxAttempts]
    (100) draws has a giver in their own position. *)
Theorem generateSecretSantaAssignments_derangement
  `{EngineLib} `{!EngineLaws} (rnd : nat) (participants : list Participant.t) :
  let usernames := map Participant.username participants in
  NoDup usernames ->
  2 <= length usernames ->
  (forall assignments,
     generateSecretSantaAssignments rnd participants = Js.Ok assignments ->
     exists receivers,
       map Assignment.username assignments = usernames
       /\ map Assignment.giftRecipient assignments = map Some receivers
       /\ Permutation receivers usernames
       /\ NoDup receivers
       /\ Forall (fun a => Assignment.giftRecipient a <> Some (Assignment.username a))
            assignments)
  /\ (forall message,
        generateSecretSantaAssignments rnd participants = Js.Throw message <->
        message = "Failed to generate valid Secret Santa assignments"
        /\ forall attempt, attempt < maxAttempts ->
             ~ deranged usernames (sort_random rnd attempt usernames))
  /\ maxAttempts = 100.
Proof.
  intros usernames Hnodup Hlen.
  assert (Hperm : forall j, Permutation (sort_random rnd j usernames) usernames)
    by (intros j; apply sort_random_perm).
  pose proof (redraw_spec rnd usernames maxAttempts 0
                (fun j _ => Permutation_length (Hperm (0 + j)))) as Hspec.
  unfold generateSecretSantaAssignments. fold usernames.
  split; [|split; [|done]].
  - intros assignments Heq. rewrite Heq in Hspec.
    destruct Hspec as (k & Hk & Hder & _ & ->).
    exists (sort_random rnd (0 + k) usernames).
    pose proof (Permutation_length (Hperm (0 + k))) as Hl.
    split; [by apply paired_usernames|].
    split; [by apply paired_recipients|].
    split; [apply Hperm|].
    split; [|by apply paired_no_self].
    by rewrite (Hperm (0 + k)).
  - intros message. split.
    + intros Heq. rewrite Heq in Hspec. destruct Hspec as [-> Hall].
      split; [done|]. intros attempt Hlt. apply (Hall attempt Hlt).
    + intros [-> Hall].
      destruct (redraw maxAttempts 0 rnd usernames) as [assignments|m].
      * destruct Hspec as (k & Hk & Hder & _). exfalso.
        by apply (Hall (0 + k)).
      * destruct Hspec as [-> _]. done.
Qed.

(** C2 on the reference engine: three participants, the second draw is
    the rotation. *)
Lemma generateSecretSantaAssignments_derangement_witness :
  generateSecretSantaAssignments 2 [alice; bob; carol]
  = Js.Ok [Assignment.mk "Alice" (Some "Bob"); Assignment.mk "Bob" (Some "Carol");
           Assignment.mk "Carol" (Some "Alice")]
  /\ exists receivers,
       map Assignment.giftRecipient
         [Assignment.mk "Alice" (Some "Bob"); Assignment.mk "Bob" (Some "Carol");
          Assignment.mk "Carol" (Some "Alice")] = map Some receivers
       /\ Permutation receivers ["Alice"; "Bob"; "Carol"].
Proof.
  split; [vm_compute; reflexivity|].
  assert (Hnd : NoDup (map Participant.username [alice; bob; carol])).
  { apply (bool_decide_unpack _). vm_compute. exact I. }
  assert (Hlen : 2 <= length (map Participant.username [alice; bob; carol])).
  { simpl. lia. }
  destruct (generateSecretSantaAssignments_derangement 2 [alice; bob; carol]
              Hnd Hlen) as [Hok _].
  destruct (Hok _ ltac:(vm_compute; reflexivity)) as (receivers & _ & Hr & Hp & _).
  exists receivers. split; [exact Hr|exact Hp].
Defined.

(** *** The assignment invariant (C3) *)

Section Invariant.
Context `{BcryptLib} `{ForgeLib} `{EngineLib}.

Lemma rooms_saveData st iso : rooms (saveData st iso) = rooms st.
Proof. unfold saveData. by destruct (saveInProgress st). Qed.

Lemma rooms_isRateLimited st env clientId :
  rooms (snd (isRateLimited st env clientId)) = rooms st.
Proof. unfold isRateLimited. by case_match. Qed.



Lemma findParticipant_None name ps :
  findParticipant name ps = None <-> name ∉ map Participant.username ps.
Proof.
  unfold findParticipant. induction ps as [|p ps IH]; simpl.
  - split; [intros _; apply not_elem_of_nil|done].
  - rewrite not_elem_of_cons. destruct (String.eqb_spec (Participant.username p) name).
    + split; [done|]. intros [Hne _]. congruence.
    + rewrite IH. split; [by intros ?|by intros [_ ?]].
Qed.



Lemma updateParticipant_usernames name f ps :
  (forall p, Participant.username (f p) = Participant.username p) ->
  map Participant.username (updateParticipant name f ps)
  = map Participant.username ps.
Proof.
  intros Hf. induction ps as [|p ps IH]; simpl; [done|].
  destruct (String.eqb (Participant.username p) name); simpl; [by rewrite Hf|].
  by rewrite IH.
Qed.


Lemma commitAssignments_usernames eas : forall ps,
  map Participant.username (commitAssignments eas ps)
  = map Participant.username ps.
Proof.
  unfold commitAssignments.
  induction eas as [|ea eas IH]; intros ps; simpl; [done|].
  rewrite IH. by apply updateParticipant_usernames.
Qed.





End Invariant.

Section Preservation.
Context `{BcryptLib} `{ForgeLib} `{EngineLib}.




(** The filter that remove-participant applies past its credential check
    keeps the invariant as well. *)
Lemma filter_usernames_NoDup (keep : Participant.t -> bool) ps :
  NoDup (map Participant.username ps) ->
  NoDup (map Participant.username (List.filter keep ps)).
Proof.
  induction ps as [|p ps IH]; simpl; [done|].
  intros Hnd. apply NoDup_cons in Hnd as [Hnotin Hnd].
  destruct (keep p); simpl; [|by apply IH].
  apply NoDup_cons. split; [|by apply IH].
  intros Hin. apply Hnotin.
  apply list_elem_of_fmap in Hin as (q & -> & Hq).
  apply list_elem_of_In, filter_In in Hq as [Hq _].
  apply list_elem_of_fmap. exists q. split; [done|by apply list_elem_of_In].
Qed.

Lemma room_ok_filter room keep :
  room_ok room ->
  room_ok (Room.set_participants (List.filter keep (Room.participants room)) room).
Proof.
  intros (Hnd & Hs & Ho).
  assert (Hsub : forall P : Participant.t -> Prop,
             Forall P (Room.participants room) ->
             Forall P (List.filter keep (Room.participants room))).
  { intros P HP. apply Forall_forall. intros p Hp.
    apply list_elem_of_In, filter_In in Hp as [Hp _].
    apply list_elem_of_In in Hp. by eapply Forall_forall in HP. }
  split; [|split]; simpl; [|by auto|by auto].
  by apply filter_usernames_NoDup.
Qed.




Lemma removeParticipant_unauthorized st env roomId body room :
  rooms st !! roomId = Some room ->
  Js.falsy (Body.hostUsername body) || Js.falsy (Body.hostPassword body)
    || Js.falsy (Body.username body) = false ->
  removeParticipant st env roomId body
  = (st, respond 401 (Res.Error "Invalid host credentials")).
Proof. intros Hroom Hfields. unfold removeParticipant. by rewrite Hfields, Hroom. Qed.

Lemma removeParticipant_state st env roomId body :
  fst (removeParticipant st env roomId body) = st.
Proof. unfold removeParticipant. by repeat case_match. Qed.




End Preservation.



(** *** All-or-nothing start (C4) *)

Section Start.
Context `{BcryptLib} `{ForgeLib} `{EngineLib}.

Lemma encryptAll_throws ps : forall assignments rnd i a m,
  assignments !! i = Some a ->
  encryptAssignment ps (rnd + i) a = Js.Throw m ->
  exists m', encryptAll ps rnd assignments = Js.Throw m'.
Proof.
  induction assignments as [|b rest IH]; intros rnd i a m Hi Ha; [done|].
  simpl. destruct i as [|i]; simpl in Hi.
  - injection Hi as ->. rewrite Nat.add_0_r in Ha. rewrite Ha. by eexists.
  - destruct (encryptAssignment ps rnd b); [|by eexists].
    replace (rnd + S i) with (S rnd + i) in Ha by lia.
    destruct (IH (S rnd) i a m Hi Ha) as [m' ->]. by eexists.
Qed.

Lemma filter_nil_Forall {A} (f : A -> bool) (l : list A) :
  Forall (fun x => f x = false) l -> List.filter f l = [].
Proof.
  induction 1 as [|x l Hx _ IH]; simpl; [done|]. by rewrite Hx.
Qed.

Lemma start_failure st env roomId body room :
  startAdmitted st roomId body room ->
  startFails env room ->
  exists m, start st env roomId body = (st, respond 500 (Res.Error m)).
Proof.
  intros (Hroom & Hu & Hp & Hpw & Hopen & Hlen & Hkeys) Hfail.
  unfold start. rewrite Hu, Hp, Hroom, Hpw, Hopen. simpl.
  destruct (Nat.ltb_spec (length (Room.participants room)) 2); [lia|].
  rewrite filter_nil_Forall; simpl.
  2:{ eapply Forall_impl; [exact Hkeys|]. intros p Hne. simpl in Hne.
      by apply String.eqb_neq. }
  destruct Hfail as [[m ->]|(assignments & i & a & m & -> & Hi & Ha)].
  - by eexists.
  - destruct (encryptAll_throws _ _ _ _ _ _ Hi Ha) as [m' ->]. by eexists.
Qed.

Lemma start_unchanged_unless_200 st env roomId body :
  code (snd (start st env roomId body)) <> 200 ->
  fst (start st env roomId body) = st.
Proof. unfold start. repeat case_match; simpl; done. Qed.

End Start.

(** C4.  When generation throws or the encryption of any one assignment
    throws, a [start] request that passed the guards is answered with
    status 500 and leaves the state as it was: the room is still open
    and no participant has been given an assignment.  More generally a
    [start] request that is not answered with 200 leaves the whole
    state as it was. *)
Theorem start_all_or_nothing `{BcryptLib} `{ForgeLib} `{EngineLib}
  (st : Server) (env : Env) (roomId : string) (body : Body.t) :
  (forall room,
     startAdmitted st roomId body room ->
     startFails env room ->
     (exists m, start st env roomId body = (st, respond 500 (Res.Error m)))
     /\ rooms (fst (start st env roomId body)) !! roomId = Some room
     /\ Room.status room = open)
  /\ (code (snd (start st env roomId body)) <> 200 ->
      fst (start st env roomId body) = st).
Proof.
  split; [|apply start_unchanged_unless_200].
  intros room Hadm Hfail.
  destruct (start_failure st env roomId body room Hadm Hfail) as [m Hm].
  split; [by exists m|]. rewrite Hm. simpl.
  destruct Hadm as (Hroom & _ & _ & _ & Hopen & _). done.
Qed.

(** C4 on the room in which Bob's key cannot be imported: the start is
    answered 500 and the room stays as it was. *)
Lemma start_all_or_nothing_witness :
  (exists m,
     start brokenKeyState Demo.env "room-1" (Demo.hostCredentials "Alice" "alicepw")
     = (brokenKeyState, respond 500 (Res.Error m)))
  /\ rooms (fst (start brokenKeyState Demo.env "room-1"
                   (Demo.hostCredentials "Alice" "alicepw"))) !! "room-1"
     = Some brokenKeyRoom
  /\ Room.status brokenKeyRoom = open.
Proof.
  apply (proj1 (start_all_or_nothing brokenKeyState Demo.env "room-1"
                  (Demo.hostCredentials "Alice" "alicepw")) brokenKeyRoom).
  - unfold startAdmitted.
    repeat match goal with |- _ /\ _ => split end; try (vm_compute; reflexivity).
    unfold brokenKeyRoom. repeat constructor; simpl; discriminate.
  - right.
    exists [Assignment.mk "Alice" (Some "Bob"); Assignment.mk "Bob" (Some "Alice")],
      1, (Assignment.mk "Bob" (Some "Alice")),
      "Failed to encrypt assignment for Bob".
    repeat split; vm_compute; reflexivity.
Defined.

(** *** Removing a participant (C5) *)

(** C5.  What the code does with a remove-participant request for a room
    that exists, with all three fields present: it answers 401 "Invalid
    host credentials" and changes nothing, whatever the credentials, the
    target and the room's status are.  The left side of its comparison
    is the promise that the un-awaited [hashPassword] returns, which is
    never identical to the stored hash. *)
Theorem removeParticipant_rejects_every_request `{BcryptLib}
  (st : Server) (env : Env) (roomId : string) (body : Body.t) (room : Room.t) :
  rooms st !! roomId = Some room ->
  Js.falsy (Body.hostUsername body) = false ->
  Js.falsy (Body.hostPassword body) = false ->
  Js.falsy (Body.username body) = false ->
  removeParticipant st env roomId body
  = (st, respond 401 (Res.Error "Invalid host credentials")).
Proof.
  intros Hroom Hu Hp Ht. apply (removeParticipant_unauthorized _ _ _ _ room Hroom).
  by rewrite Hu, Hp, Ht.
Qed.

(** C5 on the sample room: the host's own credentials, accepted by
    host-auth, are refused when the host asks to remove Bob from the
    open room. *)
Lemma removeParticipant_rejects_every_request_witness :
  code (snd (hostAuth (serve initial Demo.joined) Demo.env "room-1"
               (Demo.credentials "Alice" "alicepw"))) = 200
  /\ rooms (serve initial Demo.joined) !! "room-1" = Some Demo.openRoom
  /\ removeParticipant (serve initial Demo.joined) Demo.env "room-1"
       (Demo.removal "Alice" "alicepw" "Bob")
     = (serve initial Demo.joined,
        respond 401 (Res.Error "Invalid host credentials")).
Proof.
  split; [vm_compute; reflexivity|].
  assert (Hroom : rooms (serve initial Demo.joined) !! "room-1" = Some Demo.openRoom)
    by (vm_compute; reflexivity).
  split; [exact Hroom|].
  exact (removeParticipant_rejects_every_request (serve initial Demo.joined)
           Demo.env "room-1" (Demo.removal "Alice" "alicepw" "Bob") Demo.openRoom
           Hroom eq_refl eq_refl eq_refl).
Defined.

(** *** Credential failures (C6) *)

Section Credentials.
Context `{BcryptLib} `{ForgeLib} `{EngineLib}.








End Credentials.




(** *** The persistence flush (C7) *)

Lemma backupPath_not_live iso : backupPath iso <> ROOMS_FILE.
Proof. unfold backupPath, ROOMS_FILE, path_join, DATA_DIR. simpl. discriminate. Qed.

(** C7.  What a flush does when no other flush is in progress.  It first
    copies the snapshot that the live file holds, if there is one, to a
    backup named after the time; then it writes the new snapshot with
    [writeFile] into the live file [rooms.json] itself.  No call of the
    flush replaces the live file by a file written beside it. *)
Theorem saveData_writes_live_file_in_place (st : Server) (iso : string) :
  saveInProgress st = false ->
  (exists before,
     saveData_ops st iso = before ++ [Fs.writeFile ROOMS_FILE (rooms st)]
     /\ Forall (fun o => Fs.writesInto o ROOMS_FILE = false) before)
  /\ Forall (fun o => Fs.replaces o ROOMS_FILE = false) (saveData_ops st iso)
  /\ Fs.writesInto (Fs.writeFile ROOMS_FILE (rooms st)) ROOMS_FILE = true
  /\ disk (saveData st iso) !! ROOMS_FILE = Some (rooms st)
  /\ (forall prior,
        disk st !! ROOMS_FILE = Some prior ->
        disk (saveData st iso) !! backupPath iso = Some prior).
Proof.
  intros Hflag.
  unfold saveData, saveData_ops. rewrite Hflag. fold (backupPath iso).
  destruct (disk st !! ROOMS_FILE) as [prior|] eqn:Hlive.
  - split; [|split; [|split; [|split]]].
    + eexists [_; _; _]. split; [reflexivity|].
      repeat constructor.
    + repeat constructor.
    + reflexivity.
    + simpl. by rewrite lookup_insert_eq.
    + intros prior' [= <-]. simpl.
      rewrite lookup_insert_ne by (intros Heq; by apply (backupPath_not_live iso)).
      by rewrite lookup_insert_eq.
  - split; [|split; [|split; [|split]]].
    + eexists [_; _]. split; [reflexivity|]. repeat constructor.
    + repeat constructor.
    + reflexivity.
    + simpl. by rewrite lookup_insert_eq.
    + intros prior' [=].
Qed.

(** C7 on the sample room: a flush at five seconds past noon. *)
Lemma saveData_writes_live_file_in_place_witness :
  disk (saveData (serve initial Demo.joined) "2025-12-07T12:00:05.250Z")
    !! ROOMS_FILE
  = Some (rooms (serve initial Demo.joined))
  /\ backupPath "2025-12-07T12:00:05.250Z"
     = "data/backups/rooms.json.2025-12-07T12-00-05-250Z.backup".
Proof.
  split; [|reflexivity].
  apply (saveData_writes_live_file_in_place (serve initial Demo.joined)
           "2025-12-07T12:00:05.250Z").
  vm_compute. reflexivity.
Defined.

(** *** Re-registration (C8) *)

Section Reregistration.
Context `{BcryptLib}.

Lemma findParticipant_update name f ps p :
  (forall q, Participant.username (f q) = Participant.username q) ->
  findParticipant name ps = Some p ->
  findParticipant name (updateParticipant name f ps) = Some (f p).
Proof.
  intros Hf. unfold findParticipant.
  induction ps as [|q ps IH]; simpl; [done|].
  destruct (String.eqb (Participant.username q) name) eqn:Hq; simpl.
  - intros [= ->]. by rewrite Hf, Hq.
  - intros Hfind. rewrite Hq. by apply IH.
Qed.

Lemma register_existing st env roomId body room sanitizedUsername existing :
  fst (isRateLimited st env (ip env)) = false ->
  rooms st !! roomId = Some room ->
  Room.status room = open ->
  Js.falsy (Body.username body) = false ->
  Js.falsy (Body.password body) = false ->
  validateUsername (the (Body.username body)) = Js.Ok sanitizedUsername ->
  validatePassword (the (Body.password body)) = Js.Ok (the (Body.password body)) ->
  registerIsHost room sanitizedUsername (the (Body.password body)) = false ->
  findParticipant sanitizedUsername (Room.participants room) = Some existing ->
  verifyPassword (the (Body.password body)) (Participant.passwordHash existing)
  = true ->
  Js.falsy (Body.publicKey body) = false ->
  the (Body.publicKey body) <> "temp" ->
  let room' :=
    Room.set_participants
      (updateParticipant sanitizedUsername (reregistered body)
         (Room.participants room)) room in
  rooms (fst (register st env roomId body)) !! roomId = Some room'
  /\ snd (register st env roomId body)
     = respond 200
         (Res.Registered true false "Signed in successfully" sanitizedUsername
            (Some (Js.orElse (Body.keySalt body) (Participant.keySalt existing)))
            (roomDetails false room')).
Proof.
  intros Hrl Hroom Hopen Hu Hp Hvu Hvp Hhost Hfind Hv Hk Htemp room'.
  unfold register.
  pose proof (rooms_isRateLimited st env (ip env)) as Hrooms.
  destruct (isRateLimited st env (ip env)) as [limited st1].
  simpl in Hrl, Hrooms. subst limited.
  rewrite Hu, Hp, Hrooms, Hroom, Hopen, Hvu, Hvp, Hhost, Hfind, Hv, Hk. simpl.
  apply String.eqb_neq in Htemp. rewrite Htemp. simpl.
  assert (Hsame : updateParticipant sanitizedUsername
                    (fun p =>
                       if negb (Js.falsy (Body.keySalt body))
                       then Participant.set_keySalt (the (Body.keySalt body))
                              (Participant.set_publicKey (the (Body.publicKey body)) p)
                       else Participant.set_publicKey (the (Body.publicKey body)) p)
                    (Room.participants room)
                  = updateParticipant sanitizedUsername (reregistered body)
                      (Room.participants room)).
  { generalize (Room.participants room). intros ps.
    induction ps as [|p ps IH]; simpl; [done|].
    destruct (String.eqb (Participant.username p) sanitizedUsername);
      [|by rewrite IH].
    f_equal. unfold reregistered, Js.orElse, Js.falsy, the.
    destruct (Body.keySalt body) as [salt|]; simpl; [|by destruct p].
    destruct (String.eqb salt EmptyString); by destruct p. }
  rewrite Hsame. split.
  - rewrite rooms_saveData. simpl. by rewrite lookup_insert_eq.
  - do 3 f_equal. unfold Js.orElse, Js.falsy, the.
    destruct (Body.keySalt body) as [salt|]; simpl; [|done].
    by destruct (String.eqb salt EmptyString).
Qed.

End Reregistration.

(** C8, as the code has it.  A register request for an existing identity
    (other than one that passes the host check) with the correct secret
    and a public key that is a non-empty string other than "temp"
    replaces the stored public key of that participant, adds no
    participant (the list of usernames is the same), and sets the stored
    [keySalt] to the [keySalt] of the request when the request carries a
    non-empty one; it leaves the stored [keySalt] as it was when the
    request carries none. *)
Theorem reregister_updates_key_and_supplied_salt `{BcryptLib}
  (st : Server) (env : Env) (roomId : string) (body : Body.t)
  (room : Room.t) (sanitizedUsername : string) (existing : Participant.t) :
  fst (isRateLimited st env (ip env)) = false ->
  rooms st !! roomId = Some room ->
  Room.status room = open ->
  Js.falsy (Body.username body) = false ->
  Js.falsy (Body.password body) = false ->
  validateUsername (the (Body.username body)) = Js.Ok sanitizedUsername ->
  validatePassword (the (Body.password body)) = Js.Ok (the (Body.password body)) ->
  registerIsHost room sanitizedUsername (the (Body.password body)) = false ->
  findParticipant sanitizedUsername (Room.participants room) = Some existing ->
  verifyPassword (the (Body.password body)) (Participant.passwordHash existing)
  = true ->
  Js.falsy (Body.publicKey body) = false ->
  the (Body.publicKey body) <> "temp" ->
  exists room',
    rooms (fst (register st env roomId body)) !! roomId = Some room'
    /\ Room.usernames room' = Room.usernames room
    /\ findParticipant sanitizedUsername (Room.participants room')
       = Some (reregistered body existing)
    /\ Participant.publicKey (reregistered body existing) = the (Body.publicKey body)
    /\ (Js.falsy (Body.keySalt body) = false ->
        Participant.keySalt (reregistered body existing) = the (Body.keySalt body))
    /\ (Js.falsy (Body.keySalt body) = true ->
        Participant.keySalt (reregistered body existing)
        = Participant.keySalt existing).
Proof.
  intros Hrl Hroom Hopen Hu Hp Hvu Hvp Hhost Hfind Hv Hk Htemp.
  destruct (register_existing st env roomId body room sanitizedUsername existing)
    as [Hroom' _]; try done.
  eexists. split; [exact Hroom'|].
  split; [|split; [|split; [done|split]]].
  - unfold Room.usernames. simpl. by apply updateParticipant_usernames.
  - simpl. by apply findParticipant_update.
  - unfold reregistered, Js.orElse, Js.falsy, the. simpl.
    destruct (Body.keySalt body) as [salt|]; [|done].
    by intros ->.
  - unfold reregistered, Js.orElse, Js.falsy. simpl.
    destruct (Body.keySalt body) as [salt|]; [|done].
    by intros ->.
Qed.

(** C8 on the sample room: Bob registers again. *)
Lemma reregister_updates_key_and_supplied_salt_witness :
  exists room',
    rooms (fst (register (serve initial Demo.joined) Demo.env "room-1" bobAgain))
      !! "room-1" = Some room'
    /\ Room.usernames room' = Room.usernames Demo.openRoom
    /\ findParticipant "Bob" (Room.participants room')
       = Some (reregistered bobAgain bobBefore)
    /\ Participant.publicKey (reregistered bobAgain bobBefore)
       = the (Body.publicKey bobAgain)
    /\ (Js.falsy (Body.keySalt bobAgain) = false ->
        Participant.keySalt (reregistered bobAgain bobBefore)
        = the (Body.keySalt bobAgain))
    /\ (Js.falsy (Body.keySalt bobAgain) = true ->
        Participant.keySalt (reregistered bobAgain bobBefore)
        = Participant.keySalt bobBefore).
Proof.
  apply (reregister_updates_key_and_supplied_salt (serve initial Demo.joined)
           Demo.env "room-1" bobAgain Demo.openRoom "Bob" bobBefore);
    try (vm_compute; reflexivity).
  vm_compute. discriminate.
Defined.

(** Counterexample to C8 as the specification states it: after Bob's
    second registration his stored salt is the one the request carried. *)
Lemma reregister_changes_salt :
  (Participant.keySalt <$> findParticipant "Bob" (Room.participants Demo.openRoom))
  = Some "s2"
  /\ rooms (serve initial Demo.joined) !! "room-1" = Some Demo.openRoom
  /\ (Room.participants
        <$> rooms (fst (register (serve initial Demo.joined) Demo.env "room-1"
                          bobAgain)) !! "room-1")
     = Some [Participant.mk "Alice" "$2b$alicepw" (Reference.pemHeader +:+ "ka")
               "s1" None;
             Participant.mk "Bob" "$2b$bobpw" (Reference.pemHeader +:+ "kb2")
               "s9" None].
Proof. repeat split; vm_compute; reflexivity. Qed.

(** *** Host authentication (C9) *)

Section HostAuthentication.
Context `{BcryptLib} `{ForgeLib} `{EngineLib}.

Lemma hostAuth_by_concatenation st env env' roomId body body' :
  Js.falsy (Body.username body) = false ->
  Js.falsy (Body.password body) = false ->
  Js.falsy (Body.username body') = false ->
  Js.falsy (Body.password body') = false ->
  the (Body.username body) +:+ the (Body.password body)
  = the (Body.username body') +:+ the (Body.password body') ->
  hostAuth st env roomId body = hostAuth st env' roomId body'.
Proof.
  intros Hu Hp Hu' Hp' Hcat. unfold hostAuth.
  by rewrite Hu, Hp, Hu', Hp', Hcat.
Qed.

Lemma start_by_concatenation st env roomId body body' :
  Js.falsy (Body.hostUsername body) = false ->
  Js.falsy (Body.hostPassword body) = false ->
  Js.falsy (Body.hostUsername body') = false ->
  Js.falsy (Body.hostPassword body') = false ->
  the (Body.hostUsername body) +:+ the (Body.hostPassword body)
  = the (Body.hostUsername body') +:+ the (Body.hostPassword body') ->
  start st env roomId body = start st env roomId body'.
Proof.
  intros Hu Hp Hu' Hp' Hcat. unfold start.
  by rewrite Hu, Hp, Hu', Hp', Hcat.
Qed.

(** A register request that gets as far as the host check and passes it
    is answered as the host's, whatever its username is. *)
Lemma register_as_host st env roomId body room sanitizedUsername :
  fst (isRateLimited st env (ip env)) = false ->
  rooms st !! roomId = Some room ->
  Room.status room = open ->
  Js.falsy (Body.username body) = false ->
  Js.falsy (Body.password body) = false ->
  validateUsername (the (Body.username body)) = Js.Ok sanitizedUsername ->
  validatePassword (the (Body.password body)) = Js.Ok (the (Body.password body)) ->
  registerIsHost room sanitizedUsername (the (Body.password body)) = true ->
  (sanitizedUsername ∈ Room.usernames room ->
   snd (register st env roomId body)
   = respond 200
       (Res.Registered true true "Host authenticated successfully"
          sanitizedUsername None (roomDetails true room)))
  /\ (sanitizedUsername ∉ Room.usernames room ->
      Js.falsy (Body.publicKey body) = false ->
      exists keySalt details,
        snd (register st env roomId body)
        = respond 200
            (Res.Registered false true "Registered successfully"
               sanitizedUsername keySalt details)).
Proof.
  intros Hrl Hroom Hopen Hu Hp Hvu Hvp Hhost.
  unfold register.
  pose proof (rooms_isRateLimited st env (ip env)) as Hrooms.
  destruct (isRateLimited st env (ip env)) as [limited st1].
  simpl in Hrl, Hrooms. subst limited.
  rewrite Hu, Hp, Hrooms, Hroom, Hopen, Hvu, Hvp, Hhost. simpl.
  split.
  - intros Hin.
    destruct (findParticipant sanitizedUsername (Room.participants room)) eqn:Hf.
    + by rewrite bool_decide_eq_true_2.
    + by apply findParticipant_None in Hf.
  - intros Hnot Hk. apply findParticipant_None in Hnot. rewrite Hnot.
    rewrite bool_decide_eq_false_2 by (by intros [? ?]).
    rewrite Hk. simpl. by do 2 eexists.
Qed.

End HostAuthentication.

(** C9, as the code has it.  No handler compares the username of the
    request with the room's [hostUsername].  At host-auth and at start,
    two requests whose username and password are all present and whose
    concatenations username + password are equal get the same answer
    and leave the same state; so every split of the host's concatenated
    credentials into two non-empty parts authenticates as the host.  At
    register the string that is checked is the sanitized username
    followed by the password: a request that passes validation and whose
    sanitized username + password verifies against [hostLoginHash] is
    answered with [isHost] true, whatever the username. *)
Theorem host_authentication_by_concatenation
  `{BcryptLib} `{!BcryptLaws} `{ForgeLib} `{EngineLib}
  (st : Server) (env env' : Env) (roomId : string) (room : Room.t) :
  rooms st !! roomId = Some room ->
  (forall body body',
     Js.falsy (Body.username body) = false ->
     Js.falsy (Body.password body) = false ->
     Js.falsy (Body.username body') = false ->
     Js.falsy (Body.password body') = false ->
     the (Body.username body) +:+ the (Body.password body)
     = the (Body.username body') +:+ the (Body.password body') ->
     hostAuth st env roomId body = hostAuth st env' roomId body')
  /\ (forall body body',
        Js.falsy (Body.hostUsername body) = false ->
        Js.falsy (Body.hostPassword body) = false ->
        Js.falsy (Body.hostUsername body') = false ->
        Js.falsy (Body.hostPassword body') = false ->
        the (Body.hostUsername body) +:+ the (Body.hostPassword body)
        = the (Body.hostUsername body') +:+ the (Body.hostPassword body') ->
        start st env roomId body = start st env roomId body')
  /\ (forall hostUsername hostPassword salt body,
        Room.hostLoginHash room
        = bcrypt_hash (hostUsername +:+ hostPassword) BCRYPT_ROUNDS salt ->
        Js.falsy (Body.username body) = false ->
        Js.falsy (Body.password body) = false ->
        the (Body.username body) +:+ the (Body.password body)
        = hostUsername +:+ hostPassword ->
        code (snd (hostAuth st env roomId body)) = 200)
  /\ (forall body sanitizedUsername,
        fst (isRateLimited st env (ip env)) = false ->
        Room.status room = open ->
        Js.falsy (Body.username body) = false ->
        Js.falsy (Body.password body) = false ->
        validateUsername (the (Body.username body)) = Js.Ok sanitizedUsername ->
        validatePassword (the (Body.password body))
        = Js.Ok (the (Body.password body)) ->
        verifyPassword (sanitizedUsername +:+ the (Body.password body))
          (Room.hostLoginHash room) = true ->
        (sanitizedUsername ∈ Room.usernames room ->
         snd (register st env roomId body)
         = respond 200
             (Res.Registered true true "Host authenticated successfully"
                sanitizedUsername None (roomDetails true room)))
        /\ (sanitizedUsername ∉ Room.usernames room ->
            Js.falsy (Body.publicKey body) = false ->
            exists keySalt details,
              snd (register st env roomId body)
              = respond 200
                  (Res.Registered false true "Registered successfully"
                     sanitizedUsername keySalt details))).
Proof.
  intros Hroom.
  split; [intros; by apply hostAuth_by_concatenation|].
  split; [intros; by apply start_by_concatenation|].
  split.
  - intros hostUsername hostPassword salt body Hhash Hu Hp Hcat.
    unfold hostAuth. rewrite Hu, Hp, Hroom, Hcat, Hhash.
    unfold verifyPassword. by rewrite compare_hash.
  - intros body sanitizedUsername Hrl Hopen Hu Hp Hvu Hvp Hv.
    by apply register_as_host.
Qed.

(** C9 on the sample room: "Al" and "icealicepw" make up the host's
    "Alice" + "alicepw". *)
Lemma host_authentication_by_concatenation_witness :
  rooms (serve initial Demo.joined) !! "room-1" = Some Demo.openRoom
  /\ code (snd (hostAuth (serve initial Demo.joined) Demo.env "room-1"
                  (Demo.credentials "Al" "icealicepw"))) = 200.
Proof.
  assert (Hroom : rooms (serve initial Demo.joined) !! "room-1" = Some Demo.openRoom)
    by (vm_compute; reflexivity).
  split; [exact Hroom|].
  exact (proj1 (proj2 (proj2
           (host_authentication_by_concatenation (serve initial Demo.joined)
              Demo.env Demo.env "room-1" Demo.openRoom Hroom)))
           "Alice" "alicepw" "salt" (Demo.credentials "Al" "icealicepw")
           eq_refl eq_refl eq_refl eq_refl).
Defined.

(** Counterexample to C9 as the specification states it.  At host-auth the pair with
    an empty username and the host's whole concatenation as password is
    turned away before the check.  At register "Al" + "<secret" and
    "Al<" + "secret" are the same concatenation, and only the first is
    taken for the host. *)
Lemma equal_concatenations_differ :
  EmptyString +:+ "Alicealicepw" = "Alice" +:+ "alicepw"
  /\ snd (hostAuth (serve initial Demo.joined) Demo.env "room-1"
            (Demo.credentials "Alice" "alicepw"))
     = respond 200
         (Res.HostAuth "room-1" "Office Party" "Alice"
            [("Alice", false); ("Bob", false)] open "2025-12-07T12:00:00.000Z")
  /\ snd (hostAuth (serve initial Demo.joined) Demo.env "room-1"
            (Demo.credentials EmptyString "Alicealicepw"))
     = respond 400 (Res.Error "Username and password are required")
  /\ "Al" +:+ "<secret" = "Al<" +:+ "secret"
  /\ snd (register markupHost Demo.env "room-1"
            (Demo.registration "Al" "<secret" "k" "s"))
     = respond 200
         (Res.Registered false true "Registered successfully" "Al" (Some "s")
            (Res.mkDetails "room-1" "Party" (Some "Al") ["Al"] open))
  /\ snd (register markupHost Demo.env "room-1"
            (Demo.registration "Al<" "secret" "k" "s"))
     = respond 200
         (Res.Registered false false "Registered successfully" "Al" (Some "s")
            (Res.mkDetails "room-1" "Party" (Some "Al") ["Al"] open)).
Proof. repeat split; vm_compute; reflexivity. Qed.

(** *** Sanitized and raw usernames (C10) *)

Section RawLogin.
Context `{BcryptLib} `{ForgeLib} `{EngineLib}.





End RawLogin.




(** ** Further properties of the program *)

(** *** Validation *)

Lemma markup_free_removeAll s : markup_free (Js.removeAll is_markup s).
Proof.
  unfold markup_free. induction s as [|c s IH]; simpl; [constructor|].
  destruct (is_markup c) eqn:Hc; [done|]. simpl. by constructor.
Qed.

Lemma removeAll_markup_free s : markup_free s -> Js.removeAll is_markup s = s.
Proof.
  unfold markup_free. induction s as [|c s IH]; simpl; [done|].
  intros Hf. apply Forall_cons in Hf as [Hc Hs]. rewrite Hc. f_equal. by apply IH.
Qed.

Lemma slice0_short n : forall s, String.length s <= n -> Js.slice0 n s = s.
Proof.
  induction n as [|n IH]; intros [|c s]; simpl; try done; [lia|].
  intros Hl. f_equal. apply IH. lia.
Qed.

(** X1.  [sanitizeString] returns at most [maxLength] characters, none of
    them a markup character; and it returns its argument unchanged when
    the argument is not changed by trimming, is no longer than
    [maxLength] and has no markup character. *)
Theorem sanitizeString_bounded_and_markup_free (str : string) (maxLength : nat) :
  String.length (sanitizeString str maxLength) <= maxLength
  /\ markup_free (sanitizeString str maxLength)
  /\ (Js.trim str = str -> String.length str <= maxLength -> markup_free str ->
      sanitizeString str maxLength = str).
Proof.
  unfold sanitizeString. split; [|split].
  - etransitivity; [apply length_removeAll|apply length_slice0].
  - apply markup_free_removeAll.
  - intros Ht Hl Hm. rewrite Ht, slice0_short by done. by apply removeAll_markup_free.
Qed.

Lemma validateUsername_Ok raw n :
  validateUsername raw = Js.Ok n ->
  n = sanitizeString raw 50 /\ identity_ok n.
Proof.
  intros Hv. pose proof (validateUsername_length raw n Hv) as Hl.
  unfold validateUsername in Hv. case_match; [done|]. injection Hv as <-.
  split; [done|]. split; [done|]. apply markup_free_removeAll.
Qed.

Lemma validateRoomName_Ok raw n :
  validateRoomName raw = Js.Ok n ->
  n = sanitizeString raw 100
  /\ 1 <= String.length n <= 100 /\ markup_free n.
Proof.
  unfold validateRoomName.
  unfold sanitizeString.
  pose proof (length_removeAll is_markup (Js.slice0 100 (Js.trim raw))) as Hr.
  pose proof (length_slice0 100 (Js.trim raw)) as Hs.
  pose proof (markup_free_removeAll (Js.slice0 100 (Js.trim raw))) as Hm.
  remember (Js.slice0 100 (Js.trim raw)) as cut.
  destruct (_ || _) eqn:Hshort; [done|]. intros [= <-].
  apply orb_false_elim in Hshort as [_ Hlt]. apply Nat.ltb_ge in Hlt.
  split; [done|]. split; [lia|done].
Qed.

(** X2.  What the three validators accept and what they hand back:
    [validateUsername] hands back the sanitized username, which then has
    2 to 50 characters and no markup character, and throws exactly when
    fewer than 2 characters are left; [validateRoomName] does the same
    with 1 to 100 characters; [validatePassword] hands back the password
    as it is, and throws exactly when it has fewer than 4 characters. *)
Theorem validators_accept (raw : string) :
  match validateUsername raw with
  | Js.Ok n => n = sanitizeString raw 50 /\ identity_ok n
  | Js.Throw m =>
      m = "Username must be at least 2 characters"
      /\ String.length (sanitizeString raw 50) < 2
  end
  /\ match validateRoomName raw with
     | Js.Ok n =>
         n = sanitizeString raw 100
         /\ 1 <= String.length n <= 100 /\ markup_free n
     | Js.Throw m =>
         m = "Room name cannot be empty" /\ sanitizeString raw 100 = EmptyString
     end
  /\ match validatePassword raw with
     | Js.Ok p => p = raw /\ 4 <= String.length raw
     | Js.Throw m =>
         m = "Password must be at least 4 characters" /\ String.length raw < 4
     end.
Proof.
  split; [|split].
  - destruct (validateUsername raw) as [n|m] eqn:Hv.
    + by apply validateUsername_Ok.
    + unfold validateUsername in Hv. remember (sanitizeString raw 50) as s.
      destruct (_ || _) eqn:Hshort; [|done]. injection Hv as <-. split; [done|].
      apply orb_true_elim in Hshort as [Hempty|Hlt].
      * apply String.eqb_eq in Hempty. rewrite Hempty. simpl. lia.
      * by apply Nat.ltb_lt in Hlt.
  - destruct (validateRoomName raw) as [n|m] eqn:Hv.
    + by apply validateRoomName_Ok.
    + unfold validateRoomName in Hv. remember (sanitizeString raw 100) as s.
      destruct (_ || _) eqn:Hshort; [|done]. injection Hv as <-. split; [done|].
      apply orb_true_elim in Hshort as [Hempty|Hlt].
      * by apply String.eqb_eq in Hempty.
      * apply Nat.ltb_lt in Hlt. destruct s; [done|simpl in Hlt; lia].
  - unfold validatePassword. destruct (Nat.ltb_spec (String.length raw) 4).
    + done.
    + done.
Qed.

(** *** The rate limiter *)

(** The timestamps the limiter holds for a client. *)
Definition stored (st : Server) (clientId : string) : list Z :=
  default [] (rateLimitMap st !! clientId).

Lemma isRateLimited_cases st env clientId :
  let recent :=
    List.filter (fun time => (now env - time <? RATE_LIMIT_WINDOW)%Z)
      (stored st clientId) in
  (MAX_REQUESTS_PER_WINDOW <= length recent
   /\ isRateLimited st env clientId = (true, st))
  \/ (length recent < MAX_REQUESTS_PER_WINDOW
      /\ isRateLimited st env clientId
         = (false,
            set_rateLimitMap
              (<[clientId := recent ++ [now env]]> (rateLimitMap st)) st)).
Proof.
  unfold isRateLimited, stored. cbv zeta.
  destruct (MAX_REQUESTS_PER_WINDOW <=? length _) eqn:Hfull.
  - left. split; [by apply Nat.leb_le|done].
  - right. split; [by apply Nat.leb_gt|done].
Qed.

Lemma filter_filter_weaker {A} (f g : A -> bool) (l : list A) :
  (forall x, f x = true -> g x = true) ->
  List.filter f (List.filter g l) = List.filter f l.
Proof.
  intros Hfg. induction l as [|x l IH]; simpl; [done|].
  destruct (g x) eqn:Hg; simpl.
  - destruct (f x); by rewrite IH.
  - destruct (f x) eqn:Hf; [|done]. apply Hfg in Hf. congruence.
Qed.

Lemma filter_length_weaker {A} (f g : A -> bool) (l : list A) :
  (forall x, f x = true -> g x = true) ->
  length (List.filter f l) <= length (List.filter g l).
Proof.
  intros Hfg. induction l as [|x l IH]; simpl; [done|].
  destruct (f x) eqn:Hf.
  - rewrite (Hfg x Hf). simpl. lia.
  - destruct (g x); simpl; lia.
Qed.

(** The window bound, with [earlier] the times admitted before: the
    limiter's list agrees with them on every window that ends later. *)
Lemma admitted_window_general clientId : forall envs st earlier,
  StronglySorted (fun e e' => (now e <= now e')%Z) envs ->
  (forall a e, In a earlier -> In e envs -> (a <= now e)%Z) ->
  (forall n, (forall a, In a earlier -> (a <= n)%Z) ->
     List.filter (fun time => (n - time <? RATE_LIMIT_WINDOW)%Z) (stored st clientId)
     = List.filter (fun time => (n - time <? RATE_LIMIT_WINDOW)%Z) earlier) ->
  (forall T, length (List.filter (in_window T) earlier) <= MAX_REQUESTS_PER_WINDOW) ->
  forall T,
    length (List.filter (in_window T) (earlier ++ admitted st clientId envs))
    <= MAX_REQUESTS_PER_WINDOW.
Proof.
  induction envs as [|env rest IH]; intros st earlier Hsorted Hbefore Hagree Hbound T.
  - simpl. rewrite app_nil_r. apply Hbound.
  - apply StronglySorted_inv in Hsorted as [Hsorted Hfirst].
    simpl. destruct (isRateLimited_cases st env clientId) as [[_ ->]|[Hroom ->]].
    + apply IH; try done. intros a e Ha He. apply Hbefore; [done|by right].
    + assert (Hle : forall a, In a earlier -> (a <= now env)%Z).
      { intros a Ha. apply Hbefore; [done|by left]. }
      rewrite (Hagree (now env) Hle) in Hroom.
      replace (earlier ++ now env :: admitted _ clientId rest)
        with ((earlier ++ [now env]) ++ admitted
                (set_rateLimitMap
                   (<[clientId := List.filter
                                    (fun time => (now env - time <? RATE_LIMIT_WINDOW)%Z)
                                    (stored st clientId) ++ [now env]]>
                      (rateLimitMap st)) st) clientId rest)
        by (by rewrite <- app_assoc).
      apply IH; try done.
      * intros a e Ha He. apply in_app_or in Ha as [Ha|[<-|[]]].
        -- apply Hbefore; [done|by right].
        -- eapply Forall_forall in Hfirst; [exact Hfirst|].
           by apply list_elem_of_In.
      * intros n Hn. unfold stored. simpl. rewrite lookup_insert_eq. simpl.
        rewrite !List.filter_app. f_equal.
        fold (stored st clientId). rewrite (Hagree (now env) Hle).
        apply filter_filter_weaker. intros x Hx.
        assert (now env <= n)%Z by (apply Hn, in_or_app; right; by left).
        apply Z.ltb_lt in Hx. apply Z.ltb_lt. lia.
      * intros T'. rewrite List.filter_app, length_app. simpl.
        unfold in_window at 2.
        destruct (Z.leb_spec (now env) T') as [Hin|Hout].
        -- etransitivity; [apply Nat.add_le_mono_r, (filter_length_weaker _
             (fun time => (now env - time <? RATE_LIMIT_WINDOW)%Z))|].
           { intros x Hx. unfold in_window in Hx.
             apply andb_prop in Hx as [Hx _]. apply Z.ltb_lt in Hx.
             apply Z.ltb_lt. lia. }
           destruct (_ <? _)%Z; simpl; lia.
        -- rewrite andb_false_r. simpl. rewrite Nat.add_0_r. apply Hbound.
Qed.

(** X4.  Calls made for one client at times that do not decrease, to a
    limiter that holds nothing for that client: of the calls that
    [isRateLimited] admits, at most 10 ([MAX_REQUESTS_PER_WINDOW]) fall
    in any window of 60 000 milliseconds. *)
Theorem rate_limiter_window (st : Server) (clientId : string) (envs : list Env)
  (T : Z) :
  rateLimitMap st !! clientId = None ->
  StronglySorted (fun e e' => (now e <= now e')%Z) envs ->
  length (List.filter (in_window T) (admitted st clientId envs))
  <= MAX_REQUESTS_PER_WINDOW.
Proof.
  intros Hnone Hsorted.
  apply (admitted_window_general clientId envs st [] Hsorted).
  - intros a e [].
  - intros n _. unfold stored. by rewrite Hnone.
  - intros T'. simpl. lia.
Qed.

(** X4 on a burst of twelve calls: the first ten are admitted. *)
Lemma rate_limiter_window_witness :
  admitted initial "10.0.0.1" burst
  = [0; 1000; 2000; 3000; 4000; 5000; 6000; 7000; 8000; 9000]%Z
  /\ length (List.filter (in_window 11000) (admitted initial "10.0.0.1" burst))
     <= MAX_REQUESTS_PER_WINDOW.
Proof.
  split; [vm_compute; reflexivity|].
  apply (rate_limiter_window initial "10.0.0.1" burst 11000).
  - reflexivity.
  - unfold burst. simpl. repeat constructor; simpl; lia.
Defined.

(** *** Persistence across a restart *)

Lemma saveData_flushed st iso :
  saveInProgress st = false -> flushed (saveData st iso).
Proof.
  intros Hflag. unfold flushed, saveData, saveData_ops. rewrite Hflag.
  split; [done|]. left. simpl.
  destruct (disk st !! ROOMS_FILE); simpl; by rewrite lookup_insert_eq.
Qed.

Lemma flushed_keep st st' :
  flushed st -> rooms st' = rooms st -> disk st' = disk st ->
  saveInProgress st' = saveInProgress st -> flushed st'.
Proof. unfold flushed. intros [Hf Hd] -> -> ->. done. Qed.

Lemma isRateLimited_keeps st env clientId :
  rooms (snd (isRateLimited st env clientId)) = rooms st
  /\ disk (snd (isRateLimited st env clientId)) = disk st
  /\ saveInProgress (snd (isRateLimited st env clientId)) = saveInProgress st.
Proof. unfold isRateLimited. by case_match. Qed.

Section Flushed.
Context `{BcryptLib} `{ForgeLib} `{EngineLib}.

Lemma createRoom_flushed st env body :
  flushed st -> flushed (fst (createRoom st env body)).
Proof.
  intros Hst. unfold createRoom.
  pose proof (isRateLimited_keeps st env (ip env)) as (Hr & Hd & Hf).
  destruct (isRateLimited st env (ip env)) as [limited st1]. simpl in *.
  assert (Hst1 : flushed st1) by by eapply flushed_keep.
  repeat case_match; simpl; try done.
  apply saveData_flushed. simpl. rewrite Hf. apply Hst.
Qed.

Lemma register_flushed st env roomId body :
  flushed st -> flushed (fst (register st env roomId body)).
Proof.
  intros Hst. unfold register.
  pose proof (isRateLimited_keeps st env (ip env)) as (Hr & Hd & Hf).
  destruct (isRateLimited st env (ip env)) as [limited st1]. simpl in *.
  assert (Hst1 : flushed st1) by by eapply flushed_keep.
  repeat case_match; simpl; try done;
    apply saveData_flushed; simpl; rewrite Hf; apply Hst.
Qed.

Lemma start_flushed st env roomId body :
  flushed st -> flushed (fst (start st env roomId body)).
Proof.
  intros Hst. unfold start.
  repeat case_match; simpl; try done.
  apply saveData_flushed. simpl. apply Hst.
Qed.

Lemma handle_flushed st call : flushed st -> flushed (fst (handle st call)).
Proof.
  intros Hst.
  destruct call as [env [body|id body|id body|id body|id body|id body|id body]];
    simpl.
  - by apply createRoom_flushed.
  - unfold initRegister. by repeat case_match.
  - by apply register_flushed.
  - unfold hostAuth. by repeat case_match.
  - by rewrite removeParticipant_state.
  - by apply start_flushed.
  - unfold login. by repeat case_match.
Qed.

Lemma serve_flushed calls : forall st, flushed st -> flushed (serve st calls).
Proof.
  unfold serve. induction calls as [|call calls IH]; intros st Hst; simpl; [done|].
  apply IH. by apply handle_flushed.
Qed.

End Flushed.

(** What the loop of [loadData] leaves in the registry. *)
Lemma set_entries_lookup (entries : list (string * Room.t)) :
  forall (registry : gmap string Room.t) i,
    NoDup (entries.*1) ->
    foldl (fun registry entry => <[fst entry := snd entry]> registry)
      registry entries !! i
    = match (list_to_map entries : gmap string Room.t) !! i with
      | Some room => Some room
      | None => registry !! i
      end.
Proof.
  induction entries as [|[k v] entries IH]; intros registry i Hnd; simpl; [done|].
  apply NoDup_cons in Hnd as [Hk Hnd]. rewrite IH by done. simpl.
  destruct (decide (k = i)) as [->|Hne].
  - rewrite !lookup_insert_eq.
    by rewrite (not_elem_of_list_to_map_1 (M := gmap string) entries i Hk).
  - rewrite !lookup_insert_ne by done. done.
Qed.

Lemma loadData_snapshot st snapshot :
  rooms (loadData st (Some (Stringified snapshot))) = snapshot ∪ rooms st.
Proof.
  unfold loadData. simpl. apply map_eq. intros i.
  rewrite set_entries_lookup by apply NoDup_fst_map_to_list.
  rewrite list_to_map_to_list, lookup_union.
  destruct (snapshot !! i), (rooms st !! i); done.
Qed.

Lemma loadData_nothing st file :
  file = None \/ (exists text, file = Some (Unparsable text)) ->
  rooms (loadData st file) = rooms st.
Proof.
  intros [->|[text ->]]; unfold loadData; simpl; by rewrite map_to_list_empty.
Qed.

(** X5.  After any sequence of requests served one after another from the
    empty registry, no flush is under way and the live file
    [data/rooms.json] holds exactly the registry in memory (or the
    registry is still empty and nothing was written); hence a new process
    started on that disk loads the very same registry. *)
Theorem registry_survives_restart `{BcryptLib} `{ForgeLib} `{EngineLib}
  (calls : list (Env * Request)) :
  flushed (serve initial calls)
  /\ rooms (boot (disk (serve initial calls))) = rooms (serve initial calls).
Proof.
  assert (Hinit : flushed initial).
  { split; [done|]. right. split; [done|]. apply lookup_empty. }
  pose proof (serve_flushed calls initial Hinit) as Hf.
  split; [done|]. destruct Hf as [_ [Hfile|[Hempty Hnone]]].
  - unfold boot, readRoomsFile. rewrite Hfile.
    change (Stringified <$> Some ?x) with (Some (Stringified x)).
    rewrite loadData_snapshot. simpl. apply (right_id_L ∅ (∪)).
  - unfold boot, readRoomsFile. rewrite Hnone.
    change (Stringified <$> None) with (@None FileText).
    rewrite loadData_nothing by (by left). by rewrite Hempty.
Qed.

(** X6.  [loadData] leaves the registry as it is when the file is missing
    or its text does not parse, so that a process that starts without a
    usable file starts with the empty registry; when the text parses,
    each of its rooms is set under its key, in place of a room the
    registry held under that key.  The limiter's map and the disk are not
    touched. *)
Theorem loadData_tolerates_missing_or_corrupt_file
  (st : Server) (d : gmap string (gmap string Room.t)) :
  rooms (loadData st None) = rooms st
  /\ (forall text, rooms (loadData st (Some (Unparsable text))) = rooms st)
  /\ (forall snapshot,
        rooms (loadData st (Some (Stringified snapshot))) = snapshot ∪ rooms st)
  /\ (forall file,
        rateLimitMap (loadData st file) = rateLimitMap st
        /\ disk (loadData st file) = disk st)
  /\ (d !! ROOMS_FILE = None -> rooms (boot d) = ∅)
  /\ (forall text,
        rooms (loadData (mkServer ∅ ∅ false d) (Some (Unparsable text))) = ∅).
Proof.
  split; [apply loadData_nothing; by left|].
  split; [intros text; apply loadData_nothing; right; by exists text|].
  split; [apply loadData_snapshot|].
  split; [done|].
  split.
  - intros Hnone. unfold boot, readRoomsFile. rewrite Hnone.
    change (Stringified <$> None) with (@None FileText).
    by rewrite loadData_nothing by (by left).
  - intros text. by rewrite loadData_nothing by (right; by exists text).
Qed.

(** *** Rooms do not touch each other; a started room is final *)

Section Isolation.
Context `{BcryptLib} `{ForgeLib} `{EngineLib}.

Lemma handle_other_rooms st call other :
  other <> addressed call ->
  rooms (fst (handle st call)) !! other = rooms st !! other.
Proof.
  intros Hne.
  destruct call as [env [body|id body|id body|id body|id body|id body|id body]];
    simpl in *.
  - unfold createRoom.
    pose proof (rooms_isRateLimited st env (ip env)) as Hr.
    destruct (isRateLimited st env (ip env)) as [limited st1]. simpl in Hr.
    repeat case_match; simpl; rewrite ?rooms_saveData; simpl;
      rewrite ?lookup_insert_ne by done; by rewrite Hr.
  - unfold initRegister. by repeat case_match.
  - unfold register.
    pose proof (rooms_isRateLimited st env (ip env)) as Hr.
    destruct (isRateLimited st env (ip env)) as [limited st1]. simpl in Hr.
    repeat case_match; simpl; rewrite ?rooms_saveData; simpl;
      rewrite ?lookup_insert_ne by done; by rewrite Hr.
  - unfold hostAuth. by repeat case_match.
  - by rewrite removeParticipant_state.
  - unfold start.
    repeat case_match; simpl; rewrite ?rooms_saveData; simpl;
      rewrite ?lookup_insert_ne by done; done.
  - unfold login. by repeat case_match.
Qed.




End Isolation.

(** X7.  A request leaves every room other than the one it is about as it
    was, where a creation is about the id it draws. *)
Theorem requests_touch_one_room `{BcryptLib} `{ForgeLib} `{EngineLib}
  (st : Server) (call : Env * Request) (other : string) :
  other <> addressed call ->
  rooms (fst (handle st call)) !! other = rooms st !! other.
Proof. apply handle_other_rooms. Qed.

(** X7 on the sample session: Bob's registration in room-1 leaves a
    second room as it was. *)
Lemma requests_touch_one_room_witness :
  rooms (fst (handle twoRooms
                (Demo.env, PostRegister "room-1"
                             (Demo.registration "Bob" "bobpw" "kb" "s2"))))
    !! "room-2"
  = rooms twoRooms !! "room-2".
Proof.
  apply (requests_touch_one_room twoRooms
           (Demo.env, PostRegister "room-1"
                        (Demo.registration "Bob" "bobpw" "kb" "s2")) "room-2").
  simpl. discriminate.
Defined.



(** *** Stored names *)

Section Names.
Context `{BcryptLib} `{ForgeLib} `{EngineLib}.

Lemma names_ok_same st st' : names_ok st -> rooms st' = rooms st -> names_ok st'.
Proof. intros Hst Heq id r. rewrite Heq. apply Hst. Qed.

Lemma names_ok_insert st st' roomId room :
  names_ok st ->
  Room.id room = roomId ->
  1 <= String.length (Room.name room) <= 100 ->
  markup_free (Room.name room) ->
  identity_ok (Room.hostUsername room) ->
  Forall identity_ok (Room.usernames room) ->
  rooms st' = <[roomId := room]> (rooms st) -> names_ok st'.
Proof.
  intros Hst Hid Hl Hm Hh Hu Heq id r. rewrite Heq, lookup_insert.
  case_decide; [|apply Hst]. intros [= <-]. by subst.
Qed.

Lemma createRoom_names st env body :
  names_ok st -> names_ok (fst (createRoom st env body)).
Proof.
  intros Hst. unfold createRoom.
  pose proof (rooms_isRateLimited st env (ip env)) as Hr.
  destruct (isRateLimited st env (ip env)) as [limited st1]. simpl in Hr.
  assert (Hst1 : names_ok st1) by by eapply names_ok_same.
  destruct limited; [done|].
  destruct (_ || _); [done|].
  destruct (validateRoomName _) as [sanitizedName|] eqn:Hn; [|done].
  destruct (validateUsername _) as [sanitizedUsername|] eqn:Hu; [|done].
  destruct (validatePassword _); [|done]. simpl.
  apply validateRoomName_Ok in Hn as (_ & Hl & Hm).
  apply validateUsername_Ok in Hu as (_ & Hid).
  eapply names_ok_insert; [exact Hst1| | | | | |by rewrite rooms_saveData];
    simpl; try done.
Qed.

Lemma register_names st env roomId body :
  names_ok st -> names_ok (fst (register st env roomId body)).
Proof.
  intros Hst. unfold register.
  pose proof (rooms_isRateLimited st env (ip env)) as Hr.
  destruct (isRateLimited st env (ip env)) as [limited st1]. simpl in Hr.
  assert (Hst1 : names_ok st1) by by eapply names_ok_same.
  destruct limited; [done|].
  destruct (_ || _); [done|].
  destruct (rooms st1 !! roomId) as [room|] eqn:Hroom; [|done].
  destruct (Hst1 roomId room Hroom) as (Hid & [Hl Hm] & Hh & Hu).
  case_bool_decide as Hstatus; [done|].
  destruct (validateUsername _) as [sanitizedUsername|] eqn:Hvu; [|done].
  apply validateUsername_Ok in Hvu as (_ & Hsu).
  destruct (validatePassword _); [|done].
  destruct (_ && _); [done|].
  destruct (findParticipant sanitizedUsername _) as [existing|] eqn:Hfind.
  - destruct (negb (verifyPassword _ _)); [done|].
    destruct (_ && _); [|done]. simpl.
    eapply names_ok_insert; [exact Hst1| | | | | |by rewrite rooms_saveData];
      simpl; try done.
    unfold Room.usernames. simpl.
    rewrite updateParticipant_usernames; [done|]. intros p. by case_match.
  - destruct (Js.falsy (Body.publicKey body)); [done|]. simpl.
    eapply names_ok_insert; [exact Hst1| | | | | |by rewrite rooms_saveData];
      simpl; try done.
    unfold Room.usernames. simpl. rewrite map_app. simpl.
    apply Forall_app. split; [done|]. by constructor.
Qed.

Lemma start_names st env roomId body :
  names_ok st -> names_ok (fst (start st env roomId body)).
Proof.
  intros Hst. unfold start.
  destruct (_ || _); [done|].
  destruct (rooms st !! roomId) as [room|] eqn:Hroom; [|done].
  destruct (Hst roomId room Hroom) as (Hid & [Hl Hm] & Hh & Hu).
  destruct (negb (verifyPassword _ _)); [done|].
  case_bool_decide; [done|].
  destruct (_ <? 2); [done|].
  destruct (0 <? _); [done|].
  destruct (generateSecretSantaAssignments _ _); [|done].
  destruct (encryptAll _ _ _) as [eas|]; [|done]. simpl.
  eapply names_ok_insert; [exact Hst| | | | | |by rewrite rooms_saveData];
    simpl; try done.
  unfold Room.usernames. simpl. by rewrite commitAssignments_usernames.
Qed.

Lemma handle_names st call : names_ok st -> names_ok (fst (handle st call)).
Proof.
  intros Hst.
  destruct call as [env [body|id body|id body|id body|id body|id body|id body]];
    simpl.
  - by apply createRoom_names.
  - unfold initRegister. by repeat case_match.
  - by apply register_names.
  - unfold hostAuth. by repeat case_match.
  - by rewrite removeParticipant_state.
  - by apply start_names.
  - unfold login. by repeat case_match.
Qed.

Lemma serve_names calls : forall st, names_ok st -> names_ok (serve st calls).
Proof.
  unfold serve. induction calls as [|call calls IH]; intros st Hst; simpl; [done|].
  apply IH. by apply handle_names.
Qed.

Lemma initial_names : names_ok initial.
Proof. intros id r Hr. by simpl in Hr. Qed.

End Names.

(** X9.  In every state reached by requests served one after another from
    the empty registry, every room is stored under its own id, its name
    has 1 to 100 characters, its host's username and every participant's
    username have 2 to 50 characters, and none of these strings holds a
    markup character. *)
Theorem stored_names_are_sanitized `{BcryptLib} `{ForgeLib} `{EngineLib}
  (calls : list (Env * Request)) :
  names_ok (serve initial calls)
  /\ forall st call, names_ok st -> names_ok (fst (handle st call)).
Proof.
  split; [apply serve_names, initial_names|apply handle_names].
Qed.

(** *** Creating a room *)

Lemma falsy_long s n : n <= String.length s -> 1 <= n -> Js.falsy (Some s) = false.
Proof. intros Hl Hn. destruct s; simpl in *; [lia|done]. Qed.

(** X10.  A creation that is answered with 200 stores, under the id it
    drew, an open room without participants that carries the sanitized
    name and the sanitized host username; and from then on host-auth
    with the sanitized username and the password is answered with 200
    and the summary of that room. *)
Theorem created_room_admits_its_host `{BcryptLib} `{!BcryptLaws}
  (st : Server) (env : Env) (body : Body.t) :
  code (snd (createRoom st env body)) = 200 ->
  exists sanitizedName sanitizedUsername,
    validateRoomName (the (Body.name body)) = Js.Ok sanitizedName
    /\ validateUsername (the (Body.hostUsername body)) = Js.Ok sanitizedUsername
    /\ rooms (fst (createRoom st env body)) !! uuid env
       = Some (Room.mk (uuid env) sanitizedName sanitizedUsername
                 (hashPassword env
                    (sanitizedUsername +:+ the (Body.hostPassword body)))
                 [] open (isoNow env))
    /\ snd (createRoom st env body)
       = respond 200
           (Res.Created (uuid env) (BASE_URL +:+ "/room/" +:+ uuid env) (uuid env)
              sanitizedName sanitizedUsername 0 open)
    /\ forall env',
         hostAuth (fst (createRoom st env body)) env' (uuid env)
           (credentialsBody sanitizedUsername (the (Body.hostPassword body)))
         = (fst (createRoom st env body),
            respond 200
              (Res.HostAuth (uuid env) sanitizedName sanitizedUsername [] open
                 (isoNow env))).
Proof.
  unfold createRoom.
  destruct (isRateLimited st env (ip env)) as [limited st1].
  destruct limited; [done|].
  destruct (_ || _); [done|].
  destruct (validateRoomName _) as [sanitizedName|] eqn:Hn; [|done].
  destruct (validateUsername _) as [sanitizedUsername|] eqn:Hu; [|done].
  destruct (validatePassword _) as [pw|] eqn:Hp; [|done]. simpl. intros _.
  exists sanitizedName, sanitizedUsername.
  repeat split; try done.
  - by rewrite rooms_saveData; simpl; rewrite lookup_insert_eq.
  - intros env'. unfold hostAuth, credentialsBody. simpl Body.username.
    simpl Body.password.
    apply validateUsername_length in Hu.
    rewrite (falsy_long sanitizedUsername 2) by lia.
    unfold validatePassword in Hp.
    destruct (Nat.ltb_spec (String.length (the (Body.hostPassword body))) 4);
      [done|].
    rewrite (falsy_long (the (Body.hostPassword body)) 4) by lia. simpl.
    rewrite rooms_saveData. simpl. rewrite lookup_insert_eq.
    unfold verifyPassword, hashPassword. simpl.
    by rewrite compare_hash.
Qed.

(** X10 on the sample creation. *)
Lemma created_room_admits_its_host_witness :
  exists sanitizedName sanitizedUsername,
    validateRoomName (the (Body.name paddedCreation)) = Js.Ok sanitizedName
    /\ validateUsername (the (Body.hostUsername paddedCreation))
       = Js.Ok sanitizedUsername
    /\ rooms (fst (createRoom initial Demo.env paddedCreation)) !! uuid Demo.env
       = Some (Room.mk (uuid Demo.env) sanitizedName sanitizedUsername
                 (hashPassword Demo.env
                    (sanitizedUsername +:+ the (Body.hostPassword paddedCreation)))
                 [] open (isoNow Demo.env))
    /\ snd (createRoom initial Demo.env paddedCreation)
       = respond 200
           (Res.Created (uuid Demo.env) (BASE_URL +:+ "/room/" +:+ uuid Demo.env)
              (uuid Demo.env) sanitizedName sanitizedUsername 0 open)
    /\ forall env',
         hostAuth (fst (createRoom initial Demo.env paddedCreation)) env'
           (uuid Demo.env)
           (credentialsBody sanitizedUsername
              (the (Body.hostPassword paddedCreation)))
         = (fst (createRoom initial Demo.env paddedCreation),
            respond 200
              (Res.HostAuth (uuid Demo.env) sanitizedName sanitizedUsername []
                 open (isoNow Demo.env))).
Proof.
  apply (created_room_admits_its_host initial Demo.env paddedCreation).
  vm_compute. reflexivity.
Defined.

(** *** What a successful start writes *)

Section StartSuccess.
Context `{BcryptLib} `{ForgeLib} `{EngineLib}.







Context `{!EngineLaws}.




End StartSuccess.



(** *** From the start to the reveal *)

Section Reveal.
Context `{BcryptLib} `{ForgeLib} `{EngineLib} `{CryptoJSLib}.
Context `{!ForgeLaws} `{!EngineLaws}.



End Reveal.



(** *** Registration through the client *)

Section Registration.
Context `{BcryptLib} `{ForgeLib} `{EngineLib} `{CryptoJSLib}.

Lemma findParticipant_pushed name ps p :
  findParticipant name ps = None ->
  Participant.username p = name ->
  findParticipant name (ps ++ [p]) = Some p.
Proof.
  unfold findParticipant. intros Hnone Hname.
  induction ps as [|q ps IH]; simpl in *.
  - by rewrite Hname, String.eqb_refl.
  - destruct (String.eqb (Participant.username q) name); [done|]. by apply IH.
Qed.

(** A first registration under a username: one participant is pushed. *)
Lemma register_new st env roomId body room sanitizedUsername :
  fst (isRateLimited st env (ip env)) = false ->
  rooms st !! roomId = Some room ->
  Room.status room <> started ->
  Js.falsy (Body.username body) = false ->
  Js.falsy (Body.password body) = false ->
  validateUsername (the (Body.username body)) = Js.Ok sanitizedUsername ->
  validatePassword (the (Body.password body)) = Js.Ok (the (Body.password body)) ->
  findParticipant sanitizedUsername (Room.participants room) = None ->
  Js.falsy (Body.publicKey body) = false ->
  let keySalt := Js.orElse (Body.keySalt body) (generateKeySalt env) in
  let room' :=
    Room.set_participants
      (Room.participants room
       ++ [Participant.mk sanitizedUsername
             (hashPassword env (the (Body.password body)))
             (the (Body.publicKey body)) keySalt None]) room in
  rooms (fst (register st env roomId body)) !! roomId = Some room'
  /\ snd (register st env roomId body)
     = respond 200
         (Res.Registered false
            (registerIsHost room sanitizedUsername (the (Body.password body)))
            "Registered successfully" sanitizedUsername (Some keySalt)
            (roomDetails true room')).
Proof.
  intros Hrl Hroom Hopen Hu Hp Hvu Hvp Hfind Hk keySalt room'.
  unfold register.
  pose proof (rooms_isRateLimited st env (ip env)) as Hrooms.
  destruct (isRateLimited st env (ip env)) as [limited st1].
  simpl in Hrl, Hrooms. subst limited.
  rewrite Hu, Hp, Hrooms, Hroom. simpl.
  rewrite bool_decide_eq_false_2 by done.
  rewrite Hvu, Hvp, Hfind, Hk.
  rewrite (bool_decide_eq_false_2 (is_Some None)) by (by intros [? ?]).
  rewrite andb_false_r. simpl.
  split; [|done]. by rewrite rooms_saveData; simpl; rewrite lookup_insert_eq.
Qed.

(** A register request for a new username that is answered with success
    was admitted by the limiter and carried a public key. *)
Lemma register_answered_new st env roomId body room sanitizedUsername :
  rooms st !! roomId = Some room ->
  Room.status room <> started ->
  Js.falsy (Body.username body) = false ->
  Js.falsy (Body.password body) = false ->
  validateUsername (the (Body.username body)) = Js.Ok sanitizedUsername ->
  validatePassword (the (Body.password body)) = Js.Ok (the (Body.password body)) ->
  findParticipant sanitizedUsername (Room.participants room) = None ->
  ok (snd (register st env roomId body)) = true ->
  fst (isRateLimited st env (ip env)) = false
  /\ Js.falsy (Body.publicKey body) = false.
Proof.
  intros Hroom Hopen Hu Hp Hvu Hvp Hfind. unfold register.
  pose proof (rooms_isRateLimited st env (ip env)) as Hrooms.
  destruct (isRateLimited st env (ip env)) as [limited st1]. simpl in Hrooms.
  destruct limited; [done|].
  rewrite Hu, Hp, Hrooms, Hroom. simpl.
  rewrite bool_decide_eq_false_2 by done.
  rewrite Hvu, Hvp, Hfind.
  rewrite (bool_decide_eq_false_2 (is_Some None)) by (by intros [? ?]).
  rewrite andb_false_r.
  by destruct (Js.falsy (Body.publicKey body)).
Qed.

Lemma registerUser_new st env1 env2 roomId username password room data :
  rooms st !! roomId = Some room ->
  sanitizeString username 50 ∉ Room.usernames room ->
  randomHex env1 <> EmptyString ->
  snd (registerUser st env1 env2 roomId username password) = Js.Ok data ->
  let participant :=
    Participant.mk (sanitizeString username 50) (hashPassword env2 password)
      (exportPublicKey
         (fst (deriveKeyPairFromPassword username password roomId
                 (randomHex env1))))
      (randomHex env1) None in
  let room' :=
    Room.set_participants (Room.participants room ++ [participant]) room in
  rooms (fst (registerUser st env1 env2 roomId username password)) !! roomId
  = Some room'
  /\ data
     = Res.Registered false
         (registerIsHost room (sanitizeString username 50) password)
         "Registered successfully" (sanitizeString username 50)
         (Some (randomHex env1)) (roomDetails true room')
  /\ findParticipant (sanitizeString username 50) (Room.participants room')
     = Some participant.
Proof.
  intros Hroom Hnew Hsalt Hok participant room'.
  apply findParticipant_None in Hnew.
  unfold registerUser in *.
  unfold initRegister in *. unfold credentialsBody in *. simpl Body.username in *.
  simpl Body.password in *.
  destruct (Js.falsy (Some username) || Js.falsy (Some password)) eqn:Hfields;
    [done|].
  apply orb_false_elim in Hfields as [Hu Hp].
  rewrite Hroom in *.
  case_bool_decide as Hstatus; [done|].
  change (the (Some username)) with username in *.
  change (the (Some password)) with password in *.
  destruct (validateUsername username) as [su|] eqn:Hvu; [|done].
  apply validateUsername_Ok in Hvu as Hsu. destruct Hsu as [-> _].
  destruct (validatePassword password) as [pw|] eqn:Hvp; [|done].
  assert (pw = password) as ->.
  { unfold validatePassword in Hvp.
    destruct (String.length password <? 4); [done|]. by injection Hvp. }
  rewrite Hnew in *. cbv zeta in *. simpl ok in *. simpl negb in *. cbv iota in *.
  simpl keySaltOf in *. simpl default in *.
  set (body :=
         Body.mk None None None (Some username) (Some password)
           (Some (exportPublicKey
                    (fst (deriveKeyPairFromPassword username password roomId
                            (generateKeySalt env1)))))
           (Some (generateKeySalt env1))) in *.
  destruct (register st env2 roomId body) as [st2 response] eqn:Hreg.
  simpl in Hok. destruct (ok response) eqn:Hokr; [|done].
  simpl in Hok. injection Hok as <-.
  destruct (register_answered_new st env2 roomId body room
              (sanitizeString username 50)) as [Hrl Hk]; try done.
  { by rewrite Hreg. }
  destruct (register_new st env2 roomId body room (sanitizeString username 50))
    as [Hstate Hresp]; try done.
  rewrite Hreg in Hstate, Hresp. simpl in Hstate, Hresp. subst response.
  apply String.eqb_neq in Hsalt. unfold generateKeySalt in *.
  simpl in Hstate |- *. rewrite Hsalt in *.
  split; [done|]. split; [done|].
  by apply findParticipant_pushed.
Qed.

End Registration.

(** X13.  [registerUser] for a username that is new to the room, once it
    returns: the room has one more participant, at the end, with the
    sanitized username, no assignment, the salt that init-register
    handed out, and as public key the exported key of the pair derived
    from the username as typed, the password, the room id and that salt;
    the stored hash verifies the password; nothing else in the room has
    changed. *)
Theorem registerUser_stores_the_derived_key
  `{BcryptLib} `{!BcryptLaws} `{ForgeLib} `{EngineLib} `{CryptoJSLib}
  (st : Server) (env1 env2 : Env) (roomId username password : string)
  (room : Room.t) (data : Res.json) :
  rooms st !! roomId = Some room ->
  sanitizeString username 50 ∉ Room.usernames room ->
  randomHex env1 <> EmptyString ->
  snd (registerUser st env1 env2 roomId username password) = Js.Ok data ->
  let participant :=
    Participant.mk (sanitizeString username 50) (hashPassword env2 password)
      (exportPublicKey
         (fst (deriveKeyPairFromPassword username password roomId
                 (randomHex env1))))
      (randomHex env1) None in
  let room' :=
    Room.set_participants (Room.participants room ++ [participant]) room in
  rooms (fst (registerUser st env1 env2 roomId username password)) !! roomId
  = Some room'
  /\ data
     = Res.Registered false
         (registerIsHost room (sanitizeString username 50) password)
         "Registered successfully" (sanitizeString username 50)
         (Some (randomHex env1)) (roomDetails true room')
  /\ findParticipant (sanitizeString username 50) (Room.participants room')
     = Some participant
  /\ verifyPassword password (Participant.passwordHash participant) = true.
Proof.
  intros Hroom Hnew Hsalt Hok participant room'.
  destruct (registerUser_new st env1 env2 roomId username password room data
              Hroom Hnew Hsalt Hok) as (Hstate & Hdata & Hfind).
  repeat split; try done.
  unfold participant, verifyPassword, hashPassword. simpl. apply compare_hash.
Qed.

(** X13 on the sample room: Carol, who types a space before her name. *)
Lemma registerUser_stores_the_derived_key_witness :
  exists room data,
    rooms created !! "room-1" = Some room
    /\ snd (registerUser created Demo.env laterEnv "room-1" " Carol" "carolpw")
       = Js.Ok data
    /\ rooms (fst (registerUser created Demo.env laterEnv "room-1" " Carol"
                     "carolpw")) !! "room-1"
       = Some (Room.set_participants (Room.participants room ++ [carolDerived])
                 room)
    /\ verifyPassword "carolpw" (Participant.passwordHash carolDerived) = true.
Proof.
  assert (Hroom : rooms created !! "room-1"
                  = Some (Room.mk "room-1" "Office Party" "Alice"
                            "$2b$Alicealicepw" [] open "2025-12-07T12:00:00.000Z"))
    by (vm_compute; reflexivity).
  destruct (registerUser created Demo.env laterEnv "room-1" " Carol" "carolpw")
    as [st' [data|m]] eqn:Hrun; [|by vm_compute in Hrun].
  eexists _, data. split; [exact Hroom|]. split; [reflexivity|].
  assert (Hok : snd (registerUser created Demo.env laterEnv "room-1" " Carol"
                       "carolpw") = Js.Ok data) by (by rewrite Hrun).
  destruct (registerUser_stores_the_derived_key created Demo.env laterEnv
              "room-1" " Carol" "carolpw" _ data Hroom) as (Hstate & _ & _ & Hv).
  - apply (bool_decide_unpack _). vm_compute. exact I.
  - discriminate.
  - exact Hok.
  - rewrite Hrun in Hstate. simpl in Hstate. split; [exact Hstate|exact Hv].
Defined.

(** *** Login *)


(** *** Edge cases of the generator *)

(** X15.  [generateSecretSantaAssignments] returns the empty list for no
    participant; for a single participant it throws, after its 100
    draws; and for two participants with different usernames whatever it
    returns is the swap. *)
Theorem generator_edge_cases `{EngineLib} `{!EngineLaws} (rnd : nat) :
  generateSecretSantaAssignments rnd [] = Js.Ok []
  /\ (forall p,
        generateSecretSantaAssignments rnd [p]
        = Js.Throw "Failed to generate valid Secret Santa assignments")
  /\ (forall p q assignments,
        Participant.username p <> Participant.username q ->
        generateSecretSantaAssignments rnd [p; q] = Js.Ok assignments ->
        assignments
        = [Assignment.mk (Participant.username p) (Some (Participant.username q));
           Assignment.mk (Participant.username q) (Some (Participant.username p))]).
Proof.
  split; [done|]. split.
  - intros p.
    pose proof (redraw_spec rnd [Participant.username p] maxAttempts 0
                  (fun j _ => Permutation_length (sort_random_perm rnd (0 + j) _)))
      as Hspec.
    unfold generateSecretSantaAssignments. simpl map.
    destruct (redraw maxAttempts 0 rnd [Participant.username p]) as [r|m].
    + destruct Hspec as (k & _ & Hder & _). exfalso.
      pose proof (sort_random_perm rnd (0 + k) [Participant.username p]) as Hperm.
      apply Permutation_sym, Permutation_singleton_l in Hperm.
      rewrite <- Hperm in Hder. unfold deranged in Hder.
      apply Forall2_cons in Hder as [Hne _]. done.
    + by destruct Hspec as [-> _].
  - intros p q assignments Hne Hgen.
    assert (Hgen' : exists receivers,
               assignments = paired [Participant.username p; Participant.username q]
                               receivers
               /\ Permutation receivers
                    [Participant.username p; Participant.username q]
               /\ deranged [Participant.username p; Participant.username q]
                    receivers).
    { unfold generateSecretSantaAssignments in Hgen. simpl map in Hgen.
      pose proof (redraw_spec rnd [Participant.username p; Participant.username q]
                    maxAttempts 0
                    (fun j _ => Permutation_length (sort_random_perm rnd (0 + j) _)))
        as Hspec.
      rewrite Hgen in Hspec. destruct Hspec as (k & _ & Hder & _ & ->).
      eexists. split; [done|]. split; [apply sort_random_perm|done]. }
    destruct Hgen' as (receivers & -> & Hperm & Hder).
    apply Permutation_sym, Permutation_length_2_inv in Hperm as [->| ->].
    + unfold deranged in Hder. apply Forall2_cons in Hder as [Hbad _]. done.
    + done.
Qed.

(** X15 on the sample participants. *)
Lemma generator_edge_cases_witness :
  generateSecretSantaAssignments 2 [] = Js.Ok []
  /\ generateSecretSantaAssignments 2 [alice]
     = Js.Throw "Failed to generate valid Secret Santa assignments"
  /\ generateSecretSantaAssignments 2 [alice; bob]
     = Js.Ok [Assignment.mk "Alice" (Some "Bob"); Assignment.mk "Bob" (Some "Alice")].
Proof.
  destruct (generator_edge_cases 2) as (Hnone & Hone & Htwo).
  split; [exact Hnone|]. split; [exact (Hone alice)|].
  destruct (generateSecretSantaAssignments 2 [alice; bob]) as [assignments|m] eqn:Hgen.
  - f_equal. apply (Htwo alice bob assignments); [discriminate|exact Hgen].
  - by vm_compute in Hgen.
Defined.

(** *** Which requests the limiter counts *)

Lemma rateLimitMap_saveData st iso :
  rateLimitMap (saveData st iso) = rateLimitMap st.
Proof. unfold saveData. by case_match. Qed.

Section Limiter.
Context `{BcryptLib} `{ForgeLib} `{EngineLib}.

Lemma limited_handler_cases st env
  (handler : Server -> Server * Response) :
  (forall st1 limited,
     isRateLimited st env (ip env) = (limited, st1) ->
     (limited = true ->
      handler st
      = (st1, respond 429 (Res.Error "Too many requests. Please wait a minute.")))
     /\ rateLimitMap (fst (handler st)) = rateLimitMap st1) ->
  let recent :=
    List.filter (fun time => (now env - time <? RATE_LIMIT_WINDOW)%Z)
      (stored st (ip env)) in
  (MAX_REQUESTS_PER_WINDOW <= length recent
   /\ handler st
      = (st, respond 429 (Res.Error "Too many requests. Please wait a minute.")))
  \/ (length recent < MAX_REQUESTS_PER_WINDOW
      /\ rateLimitMap (fst (handler st))
         = <[ip env := recent ++ [now env]]> (rateLimitMap st)).
Proof.
  intros Hhandler recent.
  destruct (isRateLimited_cases st env (ip env)) as [[Hfull Hlim]|[Hroom Hlim]].
  - left. split; [done|]. by destruct (Hhandler _ _ Hlim) as [-> _].
  - right. split; [done|]. by destruct (Hhandler _ _ Hlim) as [_ ->].
Qed.

Lemma createRoom_limiter st env body :
  let recent :=
    List.filter (fun time => (now env - time <? RATE_LIMIT_WINDOW)%Z)
      (stored st (ip env)) in
  (MAX_REQUESTS_PER_WINDOW <= length recent
   /\ createRoom st env body
      = (st, respond 429 (Res.Error "Too many requests. Please wait a minute.")))
  \/ (length recent < MAX_REQUESTS_PER_WINDOW
      /\ rateLimitMap (fst (createRoom st env body))
         = <[ip env := recent ++ [now env]]> (rateLimitMap st)).
Proof.
  apply (limited_handler_cases st env (fun st => createRoom st env body)).
  intros st1 limited Hlim. unfold createRoom. rewrite Hlim. split.
  - by intros ->.
  - repeat case_match; simpl; try done. by rewrite rateLimitMap_saveData.
Qed.

Lemma register_limiter st env roomId body :
  let recent :=
    List.filter (fun time => (now env - time <? RATE_LIMIT_WINDOW)%Z)
      (stored st (ip env)) in
  (MAX_REQUESTS_PER_WINDOW <= length recent
   /\ register st env roomId body
      = (st, respond 429 (Res.Error "Too many requests. Please wait a minute.")))
  \/ (length recent < MAX_REQUESTS_PER_WINDOW
      /\ rateLimitMap (fst (register st env roomId body))
         = <[ip env := recent ++ [now env]]> (rateLimitMap st)).
Proof.
  apply (limited_handler_cases st env (fun st => register st env roomId body)).
  intros st1 limited Hlim. unfold register. rewrite Hlim. split.
  - by intros ->.
  - repeat case_match; simpl; try done; by rewrite rateLimitMap_saveData.
Qed.

Lemma unlimited_handlers st env req :
  match req with
  | PostRooms _ | PostRegister _ _ => True
  | _ => rateLimitMap (fst (handle st (env, req))) = rateLimitMap st
  end.
Proof.
  destruct req as [body|id body|id body|id body|id body|id body|id body];
    simpl; try done.
  - unfold initRegister. by repeat case_match.
  - unfold hostAuth. by repeat case_match.
  - by rewrite removeParticipant_state.
  - unfold start. repeat case_match; simpl; try done.
    by rewrite rateLimitMap_saveData.
  - unfold login. by repeat case_match.
Qed.

Lemma handle_bounded st call :
  (forall clientId, length (stored st clientId) <= MAX_REQUESTS_PER_WINDOW) ->
  forall clientId,
    length (stored (fst (handle st call)) clientId) <= MAX_REQUESTS_PER_WINDOW.
Proof.
  intros Hst clientId. destruct call as [env req].
  assert (Hcases :
            rateLimitMap (fst (handle st (env, req))) = rateLimitMap st
            \/ exists recent,
                 length recent < MAX_REQUESTS_PER_WINDOW
                 /\ rateLimitMap (fst (handle st (env, req)))
                    = <[ip env := recent ++ [now env]]> (rateLimitMap st)).
  { pose proof (unlimited_handlers st env req) as Hother.
    destruct req as [body|id body|id body|id body|id body|id body|id body];
      try (by left).
    - destruct (createRoom_limiter st env body) as [[_ Heq]|[Hlt Heq]].
      + left. simpl. by rewrite Heq.
      + right. by eexists.
    - destruct (register_limiter st env id body) as [[_ Heq]|[Hlt Heq]].
      + left. simpl. by rewrite Heq.
      + right. by eexists. }
  unfold stored in *. destruct Hcases as [->|(recent & Hlt & ->)]; [apply Hst|].
  destruct (decide (clientId = ip env)) as [->|Hne].
  - rewrite lookup_insert_eq. simpl. rewrite length_app. simpl. lia.
  - rewrite lookup_insert_ne by done. apply Hst.
Qed.

Lemma serve_bounded calls : forall st,
  (forall clientId, length (stored st clientId) <= MAX_REQUESTS_PER_WINDOW) ->
  forall clientId,
    length (stored (serve st calls) clientId) <= MAX_REQUESTS_PER_WINDOW.
Proof.
  unfold serve. induction calls as [|call calls IH]; intros st Hst; simpl; [done|].
  apply IH. by apply handle_bounded.
Qed.

End Limiter.

(** X3.  Only room creation and registration are rate limited.  When the
    client's address has ten or more requests in the last minute such a
    request is answered 429 and changes nothing; otherwise it is counted,
    whatever its outcome: the address then holds its requests of the
    last minute followed by this one.  The other requests never touch the
    limiter.  On every reachable state each address holds at most ten
    timestamps. *)
Theorem rate_limiter_counts_creation_and_registration
  `{BcryptLib} `{ForgeLib} `{EngineLib}
  (calls : list (Env * Request)) (env : Env) (req : Request) :
  let st := serve initial calls in
  let recent :=
    List.filter (fun time => (now env - time <? RATE_LIMIT_WINDOW)%Z)
      (stored st (ip env)) in
  (forall clientId, length (stored st clientId) <= MAX_REQUESTS_PER_WINDOW)
  /\ match req with
     | PostRooms _ | PostRegister _ _ =>
         if MAX_REQUESTS_PER_WINDOW <=? length recent
         then handle st (env, req)
              = (st, respond 429 (Res.Error "Too many requests. Please wait a minute."))
         else rateLimitMap (fst (handle st (env, req)))
              = <[ip env := recent ++ [now env]]> (rateLimitMap st)
     | _ => rateLimitMap (fst (handle st (env, req))) = rateLimitMap st
     end.
Proof.
  intros st recent. split.
  - apply serve_bounded. intros clientId. unfold stored. simpl.
    rewrite lookup_empty. simpl. lia.
  - pose proof (unlimited_handlers st env req) as Hother.
    destruct req as [body|id body|id body|id body|id body|id body|id body];
      try exact Hother.
    + destruct (createRoom_limiter st env body) as [[Hfull Heq]|[Hlt Heq]].
      * apply Nat.leb_le in Hfull. fold recent in Hfull. by rewrite Hfull.
      * apply Nat.leb_gt in Hlt. fold recent in Hlt. by rewrite Hlt.
    + destruct (register_limiter st env id body) as [[Hfull Heq]|[Hlt Heq]].
      * apply Nat.leb_le in Hfull. fold recent in Hfull. by rewrite Hfull.
      * apply Nat.leb_gt in Hlt. fold recent in Hlt. by rewrite Hlt.
Qed.

(** *** The salt of a registration *)

(** X16.  The salt that a successful [register] reports is the salt that
    [init-register] hands back afterwards: when [register] is answered
    200 with a key salt, [init-register] with the same body on the state
    it leaves is answered 200 with that salt and [alreadyExists] true,
    and changes nothing. *)
Theorem init_register_returns_the_registered_salt
  `{BcryptLib} `{!BcryptLaws} `{ForgeLib} `{EngineLib}
  (st : Server) (env env' : Env) (roomId : string) (body : Body.t)
  (keySalt : string) :
  code (snd (register st env roomId body)) = 200 ->
  keySaltOf (json (snd (register st env roomId body))) = Some keySalt ->
  initRegister (fst (register st env roomId body)) env' roomId body
  = (fst (register st env roomId body),
     respond 200 (Res.InitRegister keySalt true)).
Proof.
  unfold register.
  pose proof (rooms_isRateLimited st env (ip env)) as Hrooms.
  destruct (isRateLimited st env (ip env)) as [limited st1]. simpl in Hrooms.
  destruct limited; [done|].
  destruct (Js.falsy (Body.username body) || Js.falsy (Body.password body))
    eqn:Hfields; [done|].
  destruct (rooms st1 !! roomId) as [room|] eqn:Hroom; [|done].
  case_bool_decide as Hstatus; [done|].
  destruct (validateUsername _) as [sanitizedUsername|] eqn:Hvu; [|done].
  destruct (validatePassword _) as [checked|] eqn:Hvp; [|done].
  destruct (registerIsHost _ _ _ && _) eqn:Hhost; [done|].
  destruct (findParticipant _ _) as [existingParticipant|] eqn:Hfind.
  - destruct (verifyPassword _ _) eqn:Hv; [|done]. simpl negb. cbv iota.
    destruct (negb (Js.falsy (Body.publicKey body)) && _) eqn:Hkey.
    + simpl. intros _ [= <-].
      unfold initRegister. rewrite Hfields, rooms_saveData. simpl.
      rewrite lookup_insert_eq. simpl.
      rewrite bool_decide_eq_false_2 by done. rewrite Hvu, Hvp.
      erewrite findParticipant_update;
        [|by intros q; destruct (negb (Js.falsy (Body.keySalt body)))|done].
      by destruct (negb (Js.falsy (Body.keySalt body))); simpl; rewrite Hv.
    + simpl. intros _ [= <-].
      unfold initRegister. rewrite Hfields, Hroom.
      rewrite bool_decide_eq_false_2 by done.
      by rewrite Hvu, Hvp, Hfind, Hv.
  - destruct (Js.falsy (Body.publicKey body)) eqn:Hkey; [done|].
    simpl. intros _ [= <-].
    unfold initRegister. rewrite Hfields, rooms_saveData. simpl.
    rewrite lookup_insert_eq. simpl.
    rewrite bool_decide_eq_false_2 by done. rewrite Hvu, Hvp.
    erewrite findParticipant_pushed; [|done|done]. simpl.
    unfold verifyPassword, hashPassword. by rewrite compare_hash.
Qed.

(** X16 on the sample room: Bob registers with the salt s2 and asks
    again. *)
Lemma init_register_returns_the_registered_salt_witness :
  code (snd (register created Demo.env "room-1"
               (derivedRegistration "Bob" "bobpw" "s2"))) = 200
  /\ initRegister
       (fst (register created Demo.env "room-1"
               (derivedRegistration "Bob" "bobpw" "s2")))
       laterEnv "room-1" (derivedRegistration "Bob" "bobpw" "s2")
     = (fst (register created Demo.env "room-1"
               (derivedRegistration "Bob" "bobpw" "s2")),
        respond 200 (Res.InitRegister "s2" true)).
Proof.
  split; [by vm_compute|].
  apply (init_register_returns_the_registered_salt created Demo.env laterEnv
           "room-1" (derivedRegistration "Bob" "bobpw" "s2") "s2").
  - by vm_compute.
  - by vm_compute.
Defined.
